(** * A model of the [nft_storage] crate: an HTTP client for the nft.storage
    pinning service.

    Sources modelled:
    - [src/src/types.rs]: the response records and their serde
      [Deserialize] derives (with and without [#[serde(default)]]);
    - [src/src/error.rs]: [NFTStorageError];
    - [src/src/lib.rs]: the [NftStorage] handle and every method.

    The HTTP side (reqwest) is modelled by a server: a function from a
    server state and a request to a new server state and an outcome.  The
    client world holds the caller's handle, the server state and the log
    of exchanged requests and outcomes, and is threaded through a small
    state monad whose results are [Ok], [Err] (an [NFTStorageError]) or
    [Panic] (a Rust panic). *)

From Stdlib Require Import ZArith List String Ascii Bool Lia.
Import ListNotations.
Set Warnings "-register-all".
Open Scope string_scope.
Open Scope Z_scope.

(** ** JSON values ([serde_json::Value]).

    Numbers are the integral ones ([i64]/[u64]); objects are maps with
    unique keys ([serde_json::Map], a [BTreeMap] without the
    [preserve_order] feature), given here as association lists. *)

Inductive json : Type :=
| JNull
| JBool (b : bool)
| JNum (n : Z)
| JStr (s : string)
| JArr (xs : list json)
| JObj (kvs : list (string * json)).

Fixpoint lookup (k : string) (kvs : list (string * json)) : option json :=
  match kvs with
  | [] => None
  | (k', v) :: rest => if String.eqb k k' then Some v else lookup k rest
  end.

(** Removing a key from an object. *)
Definition remove_key (k : string) (kvs : list (string * json))
  : list (string * json) :=
  filter (fun kv => negb (String.eqb k (fst kv))) kvs.

(** [Map::insert] on the ordered map: keys kept in increasing order. *)
Fixpoint map_insert (k : string) (v : json) (kvs : list (string * json))
  : list (string * json) :=
  match kvs with
  | [] => [(k, v)]
  | (k', v') :: rest =>
      match String.compare k k' with
      | Lt => (k, v) :: kvs
      | Eq => (k, v) :: rest
      | Gt => (k', v') :: map_insert k v rest
      end
  end.

(** ** Option monad, standing for [Result<_, serde_json::Error>]. *)

Notation "x <-? e ; f" := (match e with Some x => f | None => None end)
  (at level 60, e at next level, right associativity).
Notation "' p <-? e ; f" := (match e with Some p => f | None => None end)
  (at level 60, p pattern, e at next level, right associativity).

(** ** Deserialisation of primitive types from a [serde_json::Value]. *)

Definition dec_bool (j : json) : option bool :=
  match j with JBool b => Some b | _ => None end.

Definition dec_string (j : json) : option string :=
  match j with JStr s => Some s | _ => None end.

Definition i32_min : Z := - 2 ^ 31.
Definition i32_max : Z := 2 ^ 31 - 1.

(** [i32]: an integral number in range, anything else is an error. *)
Definition dec_i32 (j : json) : option Z :=
  match j with
  | JNum n => if (i32_min <=? n) && (n <=? i32_max) then Some n else None
  | _ => None
  end.

Fixpoint dec_list {A} (dec : json -> option A) (xs : list json)
  : option (list A) :=
  match xs with
  | [] => Some []
  | x :: rest => a <-? dec x; l <-? dec_list dec rest; Some (a :: l)
  end.

(** [Vec<T>]: a JSON array whose elements all decode. *)
Definition dec_vec {A} (dec : json -> option A) (j : json) : option (list A) :=
  match j with JArr xs => dec_list dec xs | _ => None end.

(** ** Derived struct deserialisation.

    A derived [Deserialize] accepts a JSON object (fields looked up by
    name, unknown keys ignored) or a JSON array (fields taken in order,
    and the array must not have more elements than the struct has fields).
    A field missing from the input takes the container default when the
    struct carries [#[serde(default)]] ([dflt = Some d]); otherwise it is
    the error [missing_field] ([dflt = None]). *)

Definition obj_field {A} (kvs : list (string * json)) (k : string)
  (dec : json -> option A) (dflt : option A) : option A :=
  match lookup k kvs with
  | Some v => dec v
  | None => dflt
  end.

Definition seq_field {A} (xs : list json) (dec : json -> option A)
  (dflt : option A) : option (A * list json) :=
  match xs with
  | x :: rest => a <-? dec x; Some (a, rest)
  | [] => d <-? dflt; Some (d, [])
  end.

(** [SeqDeserializer] end check: "fewer elements in array". *)
Definition seq_end {A} (xs : list json) (a : A) : option A :=
  match xs with [] => Some a | _ => None end.

(** ** The response records of [types.rs].

    Each record sits in a module of its own name, so that its fields keep
    the Rust names ([Pin.cid], [Value.cid], ...).  [default] is the
    derived [Default], [decode] the derived [Deserialize] as driven by
    [serde_json::from_value]. *)

Module Files.
Record Files := mkFiles { name : string; file_type : string }.
Definition default : Files := mkFiles "" "".
(** [#[serde(default)]] *)
Definition decode (j : json) : option Files :=
  match j with
  | JObj kvs =>
      name <-? obj_field kvs "name" dec_string (Some default.(name));
      file_type <-? obj_field kvs "file_type" dec_string (Some default.(file_type));
      Some (mkFiles name file_type)
  | JArr xs =>
      '(name, xs) <-? seq_field xs dec_string (Some default.(name));
      '(file_type, xs) <-? seq_field xs dec_string (Some default.(file_type));
      seq_end xs (mkFiles name file_type)
  | _ => None
  end.
End Files.

Module Pin.
Record Pin := mkPin { cid : string; status : string; created : string; size : Z }.
Definition default : Pin := mkPin "" "" "" 0.
(** [#[serde(default)]] *)
Definition decode (j : json) : option Pin :=
  match j with
  | JObj kvs =>
      cid <-? obj_field kvs "cid" dec_string (Some default.(cid));
      status <-? obj_field kvs "status" dec_string (Some default.(status));
      created <-? obj_field kvs "created" dec_string (Some default.(created));
      size <-? obj_field kvs "size" dec_i32 (Some default.(size));
      Some (mkPin cid status created size)
  | JArr xs =>
      '(cid, xs) <-? seq_field xs dec_string (Some default.(cid));
      '(status, xs) <-? seq_field xs dec_string (Some default.(status));
      '(created, xs) <-? seq_field xs dec_string (Some default.(created));
      '(size, xs) <-? seq_field xs dec_i32 (Some default.(size));
      seq_end xs (mkPin cid status created size)
  | _ => None
  end.
End Pin.

Module Deals.
Record Deals := mkDeals {
  batch_root_cid : string;
  last_changed : string;
  miner : string;
  piece_cid : string;
  status : string;
  status_text : string;
  chain_deal_id : Z;
  deal_activation : string;
  deal_expiration : string;
  data_model_selector : string }.
Definition default : Deals := mkDeals "" "" "" "" "" "" 0 "" "" "".
(** [#[serde(default)]], with the [#[serde(rename = ...)]] keys. *)
Definition decode (j : json) : option Deals :=
  match j with
  | JObj kvs =>
      a <-? obj_field kvs "batchRootCid" dec_string (Some default.(batch_root_cid));
      b <-? obj_field kvs "lastChanged" dec_string (Some default.(last_changed));
      c <-? obj_field kvs "miner" dec_string (Some default.(miner));
      d <-? obj_field kvs "pieceCid" dec_string (Some default.(piece_cid));
      e <-? obj_field kvs "status" dec_string (Some default.(status));
      f <-? obj_field kvs "statusText" dec_string (Some default.(status_text));
      g <-? obj_field kvs "chainDealID" dec_i32 (Some default.(chain_deal_id));
      h <-? obj_field kvs "dealActivation" dec_string (Some default.(deal_activation));
      i <-? obj_field kvs "dealExpiration" dec_string (Some default.(deal_expiration));
      k <-? obj_field kvs "datamodelSelector" dec_string (Some default.(data_model_selector));
      Some (mkDeals a b c d e f g h i k)
  | JArr xs =>
      '(a, xs) <-? seq_field xs dec_string (Some default.(batch_root_cid));
      '(b, xs) <-? seq_field xs dec_string (Some default.(last_changed));
      '(c, xs) <-? seq_field xs dec_string (Some default.(miner));
      '(d, xs) <-? seq_field xs dec_string (Some default.(piece_cid));
      '(e, xs) <-? seq_field xs dec_string (Some default.(status));
      '(f, xs) <-? seq_field xs dec_string (Some default.(status_text));
      '(g, xs) <-? seq_field xs dec_i32 (Some default.(chain_deal_id));
      '(h, xs) <-? seq_field xs dec_string (Some default.(deal_activation));
      '(i, xs) <-? seq_field xs dec_string (Some default.(deal_expiration));
      '(k, xs) <-? seq_field xs dec_string (Some default.(data_model_selector));
      seq_end xs (mkDeals a b c d e f g h i k)
  | _ => None
  end.
End Deals.

Module Value.
Record Value := mkValue {
  cid : string;
  size : Z;
  created : string;
  file_type : string;
  scope : string;
  pin : Pin.Pin;
  files : list Files.Files;
  deals : list Deals.Deals;
  link : list string }.
Definition default : Value := mkValue "" 0 "" "" "" Pin.default [] [] [].
(** [#[serde(default)]] *)
Definition decode (j : json) : option Value :=
  match j with
  | JObj kvs =>
      cid <-? obj_field kvs "cid" dec_string (Some default.(cid));
      size <-? obj_field kvs "size" dec_i32 (Some default.(size));
      created <-? obj_field kvs "created" dec_string (Some default.(created));
      file_type <-? obj_field kvs "file_type" dec_string (Some default.(file_type));
      scope <-? obj_field kvs "scope" dec_string (Some default.(scope));
      pin <-? obj_field kvs "pin" Pin.decode (Some default.(pin));
      files <-? obj_field kvs "files" (dec_vec Files.decode) (Some default.(files));
      deals <-? obj_field kvs "deals" (dec_vec Deals.decode) (Some default.(deals));
      link <-? obj_field kvs "link" (dec_vec dec_string) (Some default.(link));
      Some (mkValue cid size created file_type scope pin files deals link)
  | JArr xs =>
      '(cid, xs) <-? seq_field xs dec_string (Some default.(cid));
      '(size, xs) <-? seq_field xs dec_i32 (Some default.(size));
      '(created, xs) <-? seq_field xs dec_string (Some default.(created));
      '(file_type, xs) <-? seq_field xs dec_string (Some default.(file_type));
      '(scope, xs) <-? seq_field xs dec_string (Some default.(scope));
      '(pin, xs) <-? seq_field xs Pin.decode (Some default.(pin));
      '(files, xs) <-? seq_field xs (dec_vec Files.decode) (Some default.(files));
      '(deals, xs) <-? seq_field xs (dec_vec Deals.decode) (Some default.(deals));
      '(link, xs) <-? seq_field xs (dec_vec dec_string) (Some default.(link));
      seq_end xs (mkValue cid size created file_type scope pin files deals link)
  | _ => None
  end.
End Value.

Module CheckNFTValue.
Record CheckNFTValue := mkCheckNFTValue {
  cid : string; pin : Pin.Pin; deals : list Deals.Deals }.
Definition default : CheckNFTValue := mkCheckNFTValue "" Pin.default [].
(** [#[serde(default)]] *)
Definition decode (j : json) : option CheckNFTValue :=
  match j with
  | JObj kvs =>
      cid <-? obj_field kvs "cid" dec_string (Some default.(cid));
      pin <-? obj_field kvs "pin" Pin.decode (Some default.(pin));
      deals <-? obj_field kvs "deals" (dec_vec Deals.decode) (Some default.(deals));
      Some (mkCheckNFTValue cid pin deals)
  | JArr xs =>
      '(cid, xs) <-? seq_field xs dec_string (Some default.(cid));
      '(pin, xs) <-? seq_field xs Pin.decode (Some default.(pin));
      '(deals, xs) <-? seq_field xs (dec_vec Deals.decode) (Some default.(deals));
      seq_end xs (mkCheckNFTValue cid pin deals)
  | _ => None
  end.
End CheckNFTValue.

Module ListNftResponse.
Record ListNftResponse := mkListNftResponse { ok : bool; value : list Value.Value }.
Definition default : ListNftResponse := mkListNftResponse false [].
(** [#[serde(default)]] *)
Definition decode (j : json) : option ListNftResponse :=
  match j with
  | JObj kvs =>
      ok <-? obj_field kvs "ok" dec_bool (Some default.(ok));
      value <-? obj_field kvs "value" (dec_vec Value.decode) (Some default.(value));
      Some (mkListNftResponse ok value)
  | JArr xs =>
      '(ok, xs) <-? seq_field xs dec_bool (Some default.(ok));
      '(value, xs) <-? seq_field xs (dec_vec Value.decode) (Some default.(value));
      seq_end xs (mkListNftResponse ok value)
  | _ => None
  end.
End ListNftResponse.

Module StoreNftResponse.
Record StoreNftResponse := mkStoreNftResponse { ok : bool; value : Value.Value }.
Definition default : StoreNftResponse := mkStoreNftResponse false Value.default.
(** No [#[serde(default)]]: both fields are required. *)
Definition decode (j : json) : option StoreNftResponse :=
  match j with
  | JObj kvs =>
      ok <-? obj_field kvs "ok" dec_bool None;
      value <-? obj_field kvs "value" Value.decode None;
      Some (mkStoreNftResponse ok value)
  | JArr xs =>
      '(ok, xs) <-? seq_field xs dec_bool None;
      '(value, xs) <-? seq_field xs Value.decode None;
      seq_end xs (mkStoreNftResponse ok value)
  | _ => None
  end.
End StoreNftResponse.

Module GetNftResponse.
Record GetNftResponse := mkGetNftResponse { ok : bool; value : Value.Value }.
Definition default : GetNftResponse := mkGetNftResponse false Value.default.
(** No [#[serde(default)]]: both fields are required. *)
Definition decode (j : json) : option GetNftResponse :=
  match j with
  | JObj kvs =>
      ok <-? obj_field kvs "ok" dec_bool None;
      value <-? obj_field kvs "value" Value.decode None;
      Some (mkGetNftResponse ok value)
  | JArr xs =>
      '(ok, xs) <-? seq_field xs dec_bool None;
      '(value, xs) <-? seq_field xs Value.decode None;
      seq_end xs (mkGetNftResponse ok value)
  | _ => None
  end.
End GetNftResponse.

Module DeleteNftResponse.
Record DeleteNftResponse := mkDeleteNftResponse { ok : bool }.
Definition default : DeleteNftResponse := mkDeleteNftResponse false.
(** No [#[serde(default)]]: the field is required. *)
Definition decode (j : json) : option DeleteNftResponse :=
  match j with
  | JObj kvs =>
      ok <-? obj_field kvs "ok" dec_bool None;
      Some (mkDeleteNftResponse ok)
  | JArr xs =>
      '(ok, xs) <-? seq_field xs dec_bool None;
      seq_end xs (mkDeleteNftResponse ok)
  | _ => None
  end.
End DeleteNftResponse.

Module CheckCidNftResponse.
Record CheckCidNftResponse := mkCheckCidNftResponse {
  ok : bool; value : CheckNFTValue.CheckNFTValue }.
Definition default : CheckCidNftResponse :=
  mkCheckCidNftResponse false CheckNFTValue.default.
(** No [#[serde(default)]]: both fields are required. *)
Definition decode (j : json) : option CheckCidNftResponse :=
  match j with
  | JObj kvs =>
      ok <-? obj_field kvs "ok" dec_bool None;
      value <-? obj_field kvs "value" CheckNFTValue.decode None;
      Some (mkCheckCidNftResponse ok value)
  | JArr xs =>
      '(ok, xs) <-? seq_field xs dec_bool None;
      '(value, xs) <-? seq_field xs CheckNFTValue.decode None;
      seq_end xs (mkCheckCidNftResponse ok value)
  | _ => None
  end.
End CheckCidNftResponse.

(** ** JSON serialisation ([serde_json::to_vec], compact formatter). *)

Fixpoint string_of_uint (d : Decimal.uint) : string :=
  match d with
  | Decimal.Nil => ""
  | Decimal.D0 d => "0" ++ string_of_uint d
  | Decimal.D1 d => "1" ++ string_of_uint d
  | Decimal.D2 d => "2" ++ string_of_uint d
  | Decimal.D3 d => "3" ++ string_of_uint d
  | Decimal.D4 d => "4" ++ string_of_uint d
  | Decimal.D5 d => "5" ++ string_of_uint d
  | Decimal.D6 d => "6" ++ string_of_uint d
  | Decimal.D7 d => "7" ++ string_of_uint d
  | Decimal.D8 d => "8" ++ string_of_uint d
  | Decimal.D9 d => "9" ++ string_of_uint d
  end.

(** [itoa] of an integral number. *)
Definition string_of_Z (z : Z) : string :=
  match z with
  | Zneg p => "-" ++ string_of_uint (Pos.to_uint p)
  | _ => string_of_uint (N.to_uint (Z.to_N z))
  end.

(** Lower-case hex digit ([HEX_DIGITS]). *)
Definition hex_digit (n : nat) : string :=
  String (ascii_of_nat (if Nat.ltb n 10 then 48 + n else 87 + n)) "".

(** The double quote character. *)
Definition dquote : ascii := ascii_of_nat 34.

(** One byte of a string, as [format_escaped_str] writes it: quote and
    backslash escaped, the control characters below 0x20 written as
    [\b \t \n \f \r] or [\u00XX], every other byte as it is. *)
Definition escape_char (c : ascii) : string :=
  let n := nat_of_ascii c in
  if Nat.eqb n 34 then "\" ++ String dquote EmptyString
  else if Nat.eqb n 92 then "\" ++ "\"
  else if Nat.eqb n 8 then "\b"
  else if Nat.eqb n 9 then "\t"
  else if Nat.eqb n 10 then "\n"
  else if Nat.eqb n 12 then "\f"
  else if Nat.eqb n 13 then "\r"
  else if Nat.ltb n 32 then "\u00" ++ hex_digit (n / 16) ++ hex_digit (n mod 16)
  else String c "".

Fixpoint escape_str (s : string) : string :=
  match s with
  | EmptyString => ""
  | String c rest => escape_char c ++ escape_str rest
  end.

Definition quote (s : string) : string :=
  String dquote (escape_str s ++ String dquote EmptyString).

Fixpoint join (sep : string) (xs : list string) : string :=
  match xs with
  | [] => ""
  | [x] => x
  | x :: rest => x ++ sep ++ join sep rest
  end.

Fixpoint serialize (j : json) : string :=
  match j with
  | JNull => "null"
  | JBool true => "true"
  | JBool false => "false"
  | JNum n => string_of_Z n
  | JStr s => quote s
  | JArr xs => "[" ++ join "," (map serialize xs) ++ "]"
  | JObj kvs =>
      "{" ++ join "," (map (fun kv => quote (fst kv) ++ ":" ++ serialize (snd kv)) kvs)
      ++ "}"
  end.

(** [serde_json::to_vec]: never fails on a [Value] (its keys are strings). *)
Definition to_vec (j : json) : list Byte.byte := list_byte_of_string (serialize j).

(** [json!({ k1: v1, ... })]: a fresh map with the entries inserted in
    order. *)
Definition json_object (kvs : list (string * json)) : json :=
  JObj (fold_left (fun m kv => map_insert (fst kv) (snd kv) m) kvs []).

(** ** Serialisation of the records ([#[derive(Serialize)]] of
    [types.rs], through [serde_json::to_value]).

    A derived [Serialize] writes a struct as a map with one entry per
    field, under its (renamed) key, each entry inserted into the
    [serde_json::Map] in declaration order; an [i32] becomes a number, a
    [Vec] an array. *)

Definition Files_to_value (f : Files.Files) : json :=
  json_object [("name", JStr (Files.name f)); ("file_type", JStr (Files.file_type f))].

Definition Pin_to_value (p : Pin.Pin) : json :=
  json_object [("cid", JStr (Pin.cid p)); ("status", JStr (Pin.status p));
               ("created", JStr (Pin.created p)); ("size", JNum (Pin.size p))].

Definition Deals_to_value (d : Deals.Deals) : json :=
  json_object [("batchRootCid", JStr (Deals.batch_root_cid d));
               ("lastChanged", JStr (Deals.last_changed d));
               ("miner", JStr (Deals.miner d));
               ("pieceCid", JStr (Deals.piece_cid d));
               ("status", JStr (Deals.status d));
               ("statusText", JStr (Deals.status_text d));
               ("chainDealID", JNum (Deals.chain_deal_id d));
               ("dealActivation", JStr (Deals.deal_activation d));
               ("dealExpiration", JStr (Deals.deal_expiration d));
               ("datamodelSelector", JStr (Deals.data_model_selector d))].

Definition Value_to_value (v : Value.Value) : json :=
  json_object [("cid", JStr (Value.cid v)); ("size", JNum (Value.size v));
               ("created", JStr (Value.created v)); ("file_type", JStr (Value.file_type v));
               ("scope", JStr (Value.scope v)); ("pin", Pin_to_value (Value.pin v));
               ("files", JArr (map Files_to_value (Value.files v)));
               ("deals", JArr (map Deals_to_value (Value.deals v)));
               ("link", JArr (map JStr (Value.link v)))].

Definition CheckNFTValue_to_value (v : CheckNFTValue.CheckNFTValue) : json :=
  json_object [("cid", JStr (CheckNFTValue.cid v)); ("pin", Pin_to_value (CheckNFTValue.pin v));
               ("deals", JArr (map Deals_to_value (CheckNFTValue.deals v)))].

Definition ListNftResponse_to_value (r : ListNftResponse.ListNftResponse) : json :=
  json_object [("ok", JBool (ListNftResponse.ok r));
               ("value", JArr (map Value_to_value (ListNftResponse.value r)))].

Definition StoreNftResponse_to_value (r : StoreNftResponse.StoreNftResponse) : json :=
  json_object [("ok", JBool (StoreNftResponse.ok r));
               ("value", Value_to_value (StoreNftResponse.value r))].

Definition GetNftResponse_to_value (r : GetNftResponse.GetNftResponse) : json :=
  json_object [("ok", JBool (GetNftResponse.ok r));
               ("value", Value_to_value (GetNftResponse.value r))].

Definition DeleteNftResponse_to_value (r : DeleteNftResponse.DeleteNftResponse) : json :=
  json_object [("ok", JBool (DeleteNftResponse.ok r))].

Definition CheckCidNftResponse_to_value (r : CheckCidNftResponse.CheckCidNftResponse) : json :=
  json_object [("ok", JBool (CheckCidNftResponse.ok r));
               ("value", CheckNFTValue_to_value (CheckCidNftResponse.value r))].

(** The records hold [i32] fields as [Z]: a record of the Rust program has
    each of them within the [i32] range. *)
Definition i32_fits (n : Z) : bool := (i32_min <=? n) && (n <=? i32_max).

Definition Pin_fits (p : Pin.Pin) : bool := i32_fits (Pin.size p).

Definition Deals_fits (d : Deals.Deals) : bool := i32_fits (Deals.chain_deal_id d).

Definition Value_fits (v : Value.Value) : bool :=
  i32_fits (Value.size v) && Pin_fits (Value.pin v) && forallb Deals_fits (Value.deals v).

Definition CheckNFTValue_fits (v : CheckNFTValue.CheckNFTValue) : bool :=
  Pin_fits (CheckNFTValue.pin v) && forallb Deals_fits (CheckNFTValue.deals v).

(** ** Errors ([error.rs]).

    Only the kind of a [reqwest::Error] matters here: a failed send, or a
    body that [Response::json] could not parse.  A [serde_json::Error]
    from [from_value] is kept abstract. *)

Inductive ReqwestError := ReqTransport | ReqDecode.
Inductive SerdeError := SerdeDecode.

Inductive NFTStorageError :=
| InvalidRequest (e : ReqwestError)
| InvalidJson (e : SerdeError)
| ApiError (v : json)
| AnyhowError.

(** ** HTTP requests and responses. *)

Inductive Method := GET | POST | DELETE.

(** A multipart part: form field name, file name and bytes. *)
Record Part := mkPart {
  part_field : string; part_file_name : string; part_bytes : list Byte.byte }.

Inductive ReqBody :=
| NoBody
| RawBody (bytes : list Byte.byte)
| Multipart (parts : list Part).

(** A request, with the token of its [bearer_auth] header. *)
Record Request := mkRequest {
  req_method : Method; req_url : string; req_bearer : string; req_body : ReqBody }.

(** The body of a response: JSON text (which parses to [v]) or not. *)
Inductive RespBody :=
| JsonText (v : json)
| NotJson (raw : string).

Record HttpResponse := mkHttpResponse { status : Z; resp_body : RespBody }.

(** [StatusCode::is_success]: 200 to 299. *)
Definition is_success (r : HttpResponse) : bool :=
  (200 <=? status r) && (status r <=? 299).

(** What [send().await] yields. *)
Inductive Outcome :=
| TransportError
| Received (r : HttpResponse).

(** ** The client handle ([lib.rs], [struct NftStorage]). *)

(** A [reqwest::Client] instance, known only by its identity. *)
Record Client := mkClient { client_id : nat }.

Record NftStorage := mkNftStorage { client : Client; url : string; token : string }.

(** ** Results: [Ok], [Err] or a panic. *)

Inductive Res (A : Type) :=
| Ok (a : A)
| Err (e : NFTStorageError)
| Panic (msg : string).
Arguments Ok {A} a.
Arguments Err {A} e.
Arguments Panic {A} msg.

Section Client.

(** The remote service: its state and its answer to each request. *)
Context {SrvState : Type}.
Variable serve : SrvState -> Request -> SrvState * Outcome.

(** The world of a call: the caller's handle, the server, and the log of
    exchanges (each request with its outcome), oldest first. *)
Record World := mkWorld {
  handle : NftStorage; server : SrvState; log : list (Request * Outcome) }.

Definition M (A : Type) : Type := World -> World * Res A.

Definition ret {A} (a : A) : M A := fun w => (w, Ok a).

Definition bind {A B} (m : M A) (f : A -> M B) : M B :=
  fun w =>
    match m w with
    | (w', Ok a) => f a w'
    | (w', Err e) => (w', Err e)
    | (w', Panic s) => (w', Panic s)
    end.

Definition throw {A} (e : NFTStorageError) : M A := fun w => (w, Err e).
Definition panic {A} (msg : string) : M A := fun w => (w, Panic msg).

(** [&self]. *)
Definition get_self : M NftStorage := fun w => (w, Ok (handle w)).

Notation "x <- m ;; f" := (bind m (fun x => f))
  (at level 61, m at next level, right associativity).

(** [.send().await?]: the request goes out and is logged; a transport
    failure is [NFTStorageError::InvalidRequest]. *)
Definition send (req : Request) : M HttpResponse :=
  fun w =>
    let (s', o) := serve (server w) req in
    let w' := mkWorld (handle w) s' (log w ++ [(req, o)]) in
    match o with
    | TransportError => (w', Err (InvalidRequest ReqTransport))
    | Received r => (w', Ok r)
    end.

(** [response.json::<Value>().await?]: a body that is not JSON is a
    [reqwest::Error] of the decode kind, hence [InvalidRequest]. *)
Definition read_json (r : HttpResponse) : M json :=
  match resp_body r with
  | JsonText v => ret v
  | NotJson _ => throw (InvalidRequest ReqDecode)
  end.

(** [serde_json::from_value(body)?]: a decode failure is [InvalidJson]. *)
Definition from_value {A} (decode : json -> option A) (v : json) : M A :=
  match decode v with
  | Some a => ret a
  | None => throw (InvalidJson SerdeDecode)
  end.

(** [v[i]]: out of bounds is a panic. *)
Definition at_index {A} (l : list A) (i : nat) : M A :=
  match nth_error l i with
  | Some x => ret x
  | None => panic "index out of bounds"
  end.

(** ** The methods of [NftStorage]. *)

Definition opt_or_empty (o : option string) : string :=
  match o with Some value => value | None => "" end.

Definition set_link (f : Value.Value) (link : list string) : Value.Value :=
  Value.mkValue (Value.cid f) (Value.size f) (Value.created f)
    (Value.file_type f) (Value.scope f) (Value.pin f) (Value.files f)
    (Value.deals f) link.

(** The filter of [list_all_stored_nft]:
    [f.files.get(0).is_some() && f.files[0].name == "metadata.json"]. *)
Definition has_metadata_first (f : Value.Value) : bool :=
  match Value.files f with
  | first :: _ => String.eqb (Files.name first) "metadata.json"
  | [] => false
  end.

(** The links added in the [only_metadata] branch. *)
Definition metadata_links (f : Value.Value) : Value.Value :=
  let link_1 := "https://" ++ Value.cid f ++ ".ipfs.dweb.link/metadata.json" in
  let link_2 := "https://ipfs.io/ipfs/" ++ Value.cid f ++ "/metadata.json" in
  let link_3 := "ipfs://" ++ Value.cid f ++ "/metadata.json" in
  set_link f [link_1; link_2; link_3].

(** The links added in the other branch (and by [get_nft]). *)
Definition plain_links (f : Value.Value) : Value.Value :=
  let link_1 := "https://" ++ Value.cid f ++ ".ipfs.dweb.link" in
  let link_2 := "https://ipfs.io/ipfs/" ++ Value.cid f in
  let link_3 := "ipfs://" ++ Value.cid f in
  set_link f [link_1; link_2; link_3].

Definition list_all_stored_nft (before limit : option string)
  (only_metadata : bool) : M ListNftResponse.ListNftResponse :=
  self <- get_self;;
  let before := opt_or_empty before in
  let limit := opt_or_empty limit in
  let url := url self ++ "/?before=" ++ before ++ "&limit=" ++ limit in
  response <- send (mkRequest GET url (token self) NoBody);;
  let status := is_success response in
  body <- read_json response;;
  if negb status then throw (ApiError body) else
  body <- from_value ListNftResponse.decode body;;
  if only_metadata then
    let final_filtered_list :=
      map metadata_links (filter has_metadata_first (ListNftResponse.value body)) in
    ret (ListNftResponse.mkListNftResponse (ListNftResponse.ok body) final_filtered_list)
  else
    let final_filtered_list := map plain_links (ListNftResponse.value body) in
    ret (ListNftResponse.mkListNftResponse (ListNftResponse.ok body) final_filtered_list).

Definition upload_file (file : list Byte.byte) : M StoreNftResponse.StoreNftResponse :=
  self <- get_self;;
  let url := url self ++ "/upload" in
  response <- send (mkRequest POST url (token self) (RawBody file));;
  let status := is_success response in
  body <- read_json response;;
  if status then from_value StoreNftResponse.decode body
  else throw (ApiError body).

(** The metadata object of [store_nft] and [store_nft_in_directory]. *)
Definition nft_metadata (nft_name description : string) (files : json) : json :=
  json_object [("name", JStr nft_name); ("description", JStr description);
               ("files", files)].

Definition store_nft (file : list Byte.byte) (nft_name description : string)
  : M StoreNftResponse.StoreNftResponse :=
  response <- upload_file file;;
  let cid := Value.cid (StoreNftResponse.value response) in
  let metadata := nft_metadata nft_name description (JStr cid) in
  let metadata_json_bytes := to_vec metadata in
  response <- upload_file metadata_json_bytes;;
  ret response.

Definition delete_nft (cid : string) : M DeleteNftResponse.DeleteNftResponse :=
  self <- get_self;;
  let url := url self ++ "/" ++ cid in
  response <- send (mkRequest DELETE url (token self) NoBody);;
  let status := is_success response in
  body <- read_json response;;
  if status then from_value DeleteNftResponse.decode body
  else throw (ApiError body).

(** The inner [for e in nfts.value] loop of [delete_all_nft] (the
    [println!] lines only write to stdout). *)
Fixpoint delete_each (es : list Value.Value) : M unit :=
  match es with
  | [] => ret tt
  | e :: rest => _ <- delete_nft (Value.cid e);; delete_each rest
  end.

(** The outer [loop] of [delete_all_nft], run for at most [fuel] rounds:
    [Ok true] when it reached [break], [Ok false] when the rounds ran out
    with the loop still going. *)
Fixpoint delete_all_loop (fuel : nat) : M bool :=
  match fuel with
  | O => ret false
  | S fuel' =>
      nfts <- list_all_stored_nft None (Some "100") false;;
      if ListNftResponse.ok nfts && Nat.leb (List.length (ListNftResponse.value nfts)) 0
      then ret true
      else _ <- delete_each (ListNftResponse.value nfts);; delete_all_loop fuel'
  end.

(** [delete_all_nft] observed for [fuel] rounds: [Ok (Some r)] is the
    method's return, [Ok None] that it has not returned yet. *)
Definition delete_all_nft (fuel : nat) : M (option DeleteNftResponse.DeleteNftResponse) :=
  done <- delete_all_loop fuel;;
  if done then ret (Some (DeleteNftResponse.mkDeleteNftResponse true)) else ret None.

Definition get_nft (cid : string) : M GetNftResponse.GetNftResponse :=
  self <- get_self;;
  let url := url self ++ "/" ++ cid in
  response <- send (mkRequest GET url (token self) NoBody);;
  let status := is_success response in
  body <- read_json response;;
  if negb status then throw (ApiError body) else
  body <- from_value GetNftResponse.decode body;;
  ret (GetNftResponse.mkGetNftResponse (GetNftResponse.ok body)
         (plain_links (GetNftResponse.value body))).

Definition check_nft (cid : string) : M CheckCidNftResponse.CheckCidNftResponse :=
  self <- get_self;;
  let url := url self ++ "/check/" ++ cid in
  response <- send (mkRequest GET url (token self) NoBody);;
  let status := is_success response in
  body <- read_json response;;
  if status then from_value CheckCidNftResponse.decode body
  else throw (ApiError body).

(** The form of [upload_file_in_directory]: for each index of [files], a
    part named "file" with [files[index]] and file name
    [file_names[index]]. *)
Fixpoint add_parts (files : list (list Byte.byte)) (file_names : list string)
  (idxs : list nat) (form : list Part) : M (list Part) :=
  match idxs with
  | [] => ret form
  | index :: rest =>
      bytes <- at_index files index;;
      name <- at_index file_names index;;
      add_parts files file_names rest (form ++ [mkPart "file" name bytes])
  end.

Definition upload_file_in_directory (files : list (list Byte.byte))
  (file_names : list string) : M StoreNftResponse.StoreNftResponse :=
  self <- get_self;;
  let url := url self ++ "/upload" in
  form <- add_parts files file_names (seq 0 (List.length files)) [];;
  response <- send (mkRequest POST url (token self) (Multipart form));;
  let status := is_success response in
  body <- read_json response;;
  if status then from_value StoreNftResponse.decode body
  else throw (ApiError body).

Definition store_nft_in_directory (files : list (list Byte.byte))
  (file_names : list string) (nft_name description : string)
  : M StoreNftResponse.StoreNftResponse :=
  response <- upload_file_in_directory files file_names;;
  let value := Value.files (StoreNftResponse.value response) in
  let cid := Value.cid (StoreNftResponse.value response) in
  let file_names := map Files.name value in
  let file_cids := map (fun f => "ipfs://" ++ cid ++ "/" ++ f) file_names in
  let metadata := nft_metadata nft_name description (JArr (map JStr file_cids)) in
  let metadata_json_bytes := to_vec metadata in
  response <- upload_file_in_directory [metadata_json_bytes] ["metadata.json"];;
  ret response.

End Client.

(** A computation leaves the caller's handle as it found it. *)
Definition keeps_handle {S A} (m : @M S A) : Prop :=
  forall w, handle (fst (m w)) = handle w.

(** The URLs [list_all_stored_nft] and [get_nft] attach to an entry with
    identifier [X], in the words of the spec: the gateway, the public
    gateway and the native-scheme URL, each followed by [suffix]. *)
Definition convenience_links (X suffix : string) : list string :=
  map (fun u => u ++ suffix)
    ["https://" ++ X ++ ".ipfs.dweb.link"; "https://ipfs.io/ipfs/" ++ X; "ipfs://" ++ X].

(** The field [k] of a JSON object. *)
Definition get_field (j : json) (k : string) : option json :=
  match j with JObj kvs => lookup k kvs | _ => None end.

(** The request [upload_file] sends for [body]. *)
Definition upload_request (self : NftStorage) (body : ReqBody) : Request :=
  mkRequest POST (url self ++ "/upload") (token self) body.

(** The request [list_all_stored_nft] sends inside [delete_all_nft]. *)
Definition page_request (self : NftStorage) : Request :=
  mkRequest GET (url self ++ "/?before=" ++ "" ++ "&limit=" ++ "100") (token self) NoBody.

(** The request [delete_nft] sends for [cid]. *)
Definition delete_request (self : NftStorage) (cid : string) : Request :=
  mkRequest DELETE (url self ++ "/" ++ cid) (token self) NoBody.

(** The parts of the form [upload_file_in_directory] builds. *)
Definition form_parts (files : list (list Byte.byte)) (file_names : list string)
  : list Part :=
  map (fun i => mkPart "file" (nth i file_names "") (nth i files [])) (seq 0 (List.length files)).

(** ** Sample handle, worlds and servers. *)

Definition sample_handle : NftStorage :=
  mkNftStorage (mkClient 0) "https://api.nft.storage" "token".

Definition sample_world : World (SrvState:=unit) := mkWorld sample_handle tt [].

(** A server answering every request with [o]. *)
Definition constant_server (o : Outcome) (s : unit) (q : Request) : unit * Outcome :=
  (tt, o).

(** A gateway error page. *)
Definition html_502 : HttpResponse :=
  mkHttpResponse 502 (NotJson "<html>502 Bad Gateway</html>").

(** A 2xx response whose body is not JSON. *)
Definition html_200 : HttpResponse :=
  mkHttpResponse 200 (NotJson "<html>maintenance</html>").

(** An API error with a JSON body. *)
Definition api_error_500 : HttpResponse :=
  mkHttpResponse 500 (JsonText (JObj [("ok", JBool false);
    ("error", JObj [("name", JStr "HTTPError"); ("message", JStr "internal")])])).

(** A successful upload answer naming [cid] and [files]. *)
Definition upload_ok (cid : string) (names : list string) : HttpResponse :=
  mkHttpResponse 200 (JsonText (JObj [("ok", JBool true);
    ("value", JObj [("cid", JStr cid);
                    ("files", JArr (map (fun n => JObj [("name", JStr n)]) names))])])).

(** A listed entry as the server sends it, with a stale [link] value. *)
Definition sample_entry (cid : string) (names : list string) : json :=
  JObj [("cid", JStr cid);
        ("files", JArr (map (fun n => JObj [("name", JStr n)]) names));
        ("link", JArr [JStr "https://example.org/stale"])].

(** A 2xx listing answer. *)
Definition list_page (ok : bool) (entries : list json) : HttpResponse :=
  mkHttpResponse 200 (JsonText (JObj [("ok", JBool ok); ("value", JArr entries)])).

Definition sample_page : HttpResponse :=
  list_page true [sample_entry "bafyA" ["metadata.json"];
                  sample_entry "bafyB" ["cat.png"; "metadata.json"];
                  sample_entry "bafyC" []].

Definition sample_page_json : json :=
  match resp_body sample_page with JsonText v => v | NotJson _ => JNull end.

Definition sample_page_body : ListNftResponse.ListNftResponse :=
  match ListNftResponse.decode sample_page_json with
  | Some b => b
  | None => ListNftResponse.default
  end.

(** A server holding one stored item: the first listing returns it, later
    listings are empty; deletions are answered with [ok: false]; uploads
    fail at the transport level.  Its state counts the listings. *)
Definition draining_server (s : nat) (q : Request) : nat * Outcome :=
  match req_method q with
  | GET => (S s, Received (if Nat.eqb s 0
                           then list_page true [sample_entry "bafyA" ["metadata.json"]]
                           else list_page true []))
  | DELETE => (s, Received (mkHttpResponse 200 (JsonText (JObj [("ok", JBool false)]))))
  | POST => (s, TransportError)
  end.

Definition draining_world : World (SrvState:=nat) := mkWorld sample_handle 0%nat [].

(** A server that lists one entry and refuses every deletion. *)
Definition failing_delete_server (s : unit) (q : Request) : unit * Outcome :=
  match req_method q with
  | DELETE => (tt, Received api_error_500)
  | _ => (tt, Received (list_page true [sample_entry "bafyA" ["cat.png"]]))
  end.

(** * Properties *)

(** A stored entry with every field set. *)
Definition sample_value : Value.Value :=
  Value.mkValue "bafyV" 42 "2021-12-01T08:52:33" "image/png" "default"
    (Pin.mkPin "bafyV" "pinned" "2021-12-01T08:52:33" 42)
    [Files.mkFiles "cat.png" "image/png"]
    [Deals.mkDeals "bafyR" "2021-12-02" "f01234" "bafyP" "active" "ok" 7 "2021-12-03"
       "2022-12-03" "s"]
    ["ipfs://bafyV"].

(** A listing whose second entry has a size beyond the [i32] range. *)
Definition oversized_entries : list json :=
  [JObj [("cid", JStr "bafyA")]; JObj [("cid", JStr "bafyB"); ("size", JNum (2 ^ 31))]].

Definition oversized_page : HttpResponse := list_page true oversized_entries.

Create HintDb khdb.

Section Properties.

Context {SrvState : Type}.
Variable serve : SrvState -> Request -> SrvState * Outcome.

(** ** The handle is never written. *)

Lemma kh_ret {A} (a : A) : keeps_handle (S:=SrvState) (ret a).
Proof. intro w; reflexivity. Qed.

Lemma kh_throw {A} e : keeps_handle (S:=SrvState) (A:=A) (throw e).
Proof. intro w; reflexivity. Qed.

Lemma kh_panic {A} msg : keeps_handle (S:=SrvState) (A:=A) (panic msg).
Proof. intro w; reflexivity. Qed.

Lemma kh_get_self : keeps_handle (S:=SrvState) get_self.
Proof. intro w; reflexivity. Qed.

Lemma kh_send q : keeps_handle (send serve q).
Proof.
  intro w; unfold send.
  destruct (serve (server w) q) as [s' o]; destruct o; reflexivity.
Qed.

Lemma kh_read_json r : keeps_handle (S:=SrvState) (read_json r).
Proof. unfold read_json; destruct (resp_body r); intro w; reflexivity. Qed.

Lemma kh_from_value {A} (d : json -> option A) v :
  keeps_handle (S:=SrvState) (from_value d v).
Proof. unfold from_value; destruct (d v); intro w; reflexivity. Qed.

Lemma kh_at_index {A} (l : list A) i : keeps_handle (S:=SrvState) (at_index l i).
Proof. unfold at_index; destruct (nth_error l i); intro w; reflexivity. Qed.

Lemma kh_bind {A B} (m : M A) (f : A -> M B) :
  keeps_handle m -> (forall a, keeps_handle (f a)) ->
  keeps_handle (S:=SrvState) (bind m f).
Proof.
  intros Hm Hf w; unfold bind.
  specialize (Hm w); destruct (m w) as [w1 r]; simpl in Hm.
  destruct r; simpl; [rewrite Hf |..]; exact Hm.
Qed.

#[local] Hint Resolve kh_ret kh_throw kh_panic kh_get_self kh_send kh_read_json
  kh_from_value kh_at_index : khdb.

Ltac kh_solve :=
  repeat match goal with
  | |- keeps_handle (bind _ _) => apply kh_bind; [ | intro ]
  | |- keeps_handle (if ?b then _ else _) => destruct b
  | |- keeps_handle (let _ := _ in _) => cbv zeta
  | _ => solve [eauto with khdb]
  end.

Lemma kh_list_all_stored_nft before limit om :
  keeps_handle (list_all_stored_nft serve before limit om).
Proof. unfold list_all_stored_nft; kh_solve. Qed.

Lemma kh_upload_file file : keeps_handle (upload_file serve file).
Proof. unfold upload_file; kh_solve. Qed.

Lemma kh_delete_nft cid : keeps_handle (delete_nft serve cid).
Proof. unfold delete_nft; kh_solve. Qed.

Lemma kh_get_nft cid : keeps_handle (get_nft serve cid).
Proof. unfold get_nft; kh_solve. Qed.

Lemma kh_check_nft cid : keeps_handle (check_nft serve cid).
Proof. unfold check_nft; kh_solve. Qed.

#[local] Hint Resolve kh_list_all_stored_nft kh_upload_file kh_delete_nft : khdb.

Lemma kh_delete_each es : keeps_handle (delete_each serve es).
Proof. induction es; simpl; kh_solve. Qed.

#[local] Hint Resolve kh_delete_each : khdb.

Lemma kh_delete_all_loop fuel : keeps_handle (delete_all_loop serve fuel).
Proof. induction fuel; simpl; kh_solve. Qed.

#[local] Hint Resolve kh_delete_all_loop : khdb.

Lemma kh_add_parts files names idxs form :
  keeps_handle (S:=SrvState) (add_parts files names idxs form).
Proof. revert form; induction idxs; intro form; simpl; kh_solve. Qed.

#[local] Hint Resolve kh_add_parts : khdb.

Lemma kh_upload_file_in_directory files names :
  keeps_handle (upload_file_in_directory serve files names).
Proof. unfold upload_file_in_directory; kh_solve. Qed.

#[local] Hint Resolve kh_upload_file_in_directory : khdb.

Lemma kh_delete_all_nft fuel : keeps_handle (delete_all_nft serve fuel).
Proof. unfold delete_all_nft; kh_solve. Qed.

Lemma kh_store_nft file n d : keeps_handle (store_nft serve file n d).
Proof. unfold store_nft; kh_solve. Qed.

Lemma kh_store_nft_in_directory files names n d :
  keeps_handle (store_nft_in_directory serve files names n d).
Proof. unfold store_nft_in_directory; kh_solve. Qed.


(** ** Shared lemmas on sending and on the directory form. *)

Lemma send_received (w : World) q resp :
  snd (serve (server w) q) = Received resp ->
  send serve q w =
  (mkWorld (handle w) (fst (serve (server w) q)) (log w ++ [(q, Received resp)]), Ok resp).
Proof.
  unfold send; destruct (serve (server w) q) as [s' o]; simpl; intros ->; reflexivity.
Qed.

Lemma add_parts_ok fs ns idxs form (w : World (SrvState:=SrvState)) :
  (List.length fs <= List.length ns)%nat ->
  (forall i, In i idxs -> (i < List.length fs)%nat) ->
  add_parts fs ns idxs form w =
  (w, Ok (form ++ map (fun i => mkPart "file" (nth i ns "") (nth i fs [])) idxs)%list).
Proof.
  intros Hlen. revert form; induction idxs as [|i rest IH]; intros form Hin; simpl.
  - rewrite app_nil_r; reflexivity.
  - assert (Hi : (i < List.length fs)%nat) by (apply Hin; left; reflexivity).
    unfold bind, at_index.
    rewrite (nth_error_nth' fs (n:=i) []) by exact Hi.
    rewrite (nth_error_nth' ns (n:=i) "") by lia.
    cbn [ret]. rewrite IH by (intros j Hj; apply Hin; right; exact Hj).
    rewrite <- app_assoc; reflexivity.
Qed.

Lemma add_parts_panic fs ns idxs form (w : World (SrvState:=SrvState)) :
  (exists i, In i idxs /\ (List.length ns <= i)%nat) ->
  (forall i, In i idxs -> (i < List.length fs)%nat) ->
  add_parts fs ns idxs form w = (w, Panic "index out of bounds").
Proof.
  revert form; induction idxs as [|i rest IH]; intros form [j [Hj Hjn]] Hin.
  - destruct Hj.
  - assert (Hi : (i < List.length fs)%nat) by (apply Hin; left; reflexivity).
    simpl; unfold bind, at_index.
    rewrite (nth_error_nth' fs (n:=i) []) by exact Hi. cbn [ret].
    destruct (nth_error ns i) as [name|] eqn:E.
    + assert (i < List.length ns)%nat by (apply nth_error_Some; congruence).
      destruct Hj as [<- | Hj]; [lia |].
      apply IH; [exists j; split; assumption |].
      intros k Hk; apply Hin; right; exact Hk.
    + reflexivity.
Qed.

Lemma upload_form_ok fs ns (w : World (SrvState:=SrvState)) :
  (List.length fs <= List.length ns)%nat ->
  add_parts fs ns (seq 0 (List.length fs)) [] w = (w, Ok (form_parts fs ns)).
Proof.
  intro H. rewrite add_parts_ok; [reflexivity | exact H |].
  intros i Hi; apply in_seq in Hi; lia.
Qed.

Lemma upload_form_panic fs ns (w : World (SrvState:=SrvState)) :
  (List.length ns < List.length fs)%nat ->
  add_parts fs ns (seq 0 (List.length fs)) [] w = (w, Panic "index out of bounds").
Proof.
  intro H. apply add_parts_panic.
  - exists (List.length ns); split; [apply in_seq; lia | lia].
  - intros i Hi; apply in_seq in Hi; lia.
Qed.

Ltac run_send Hsrv :=
  match goal with
  | |- context [send serve ?q ?w] => rewrite (send_received w q _ (Hsrv q))
  end.

(** Response handling of the single-request methods, under a server that
    answers the request with [resp]. *)
Ltac single_op Hsrv :=
  cbv beta zeta delta [list_all_stored_nft upload_file delete_nft get_nft check_nft
                       upload_file_in_directory bind get_self];
  cbn [ret]; try (rewrite upload_form_ok by assumption);
  run_send Hsrv; cbn beta iota zeta; unfold read_json.

(** ** C2: non-2xx responses. *)

(** Claim C2 (corrected).  For every single-request method
    ([list_all_stored_nft], [upload_file], [upload_file_in_directory] when
    it does not panic, [get_nft], [delete_nft], [check_nft]) and a server
    answering it with a non-2xx response: if the body is JSON text, the
    call returns [ApiError] carrying that body as a parsed JSON value; if
    the body is not JSON, it returns [InvalidRequest] (reqwest's decode
    error), because the body is parsed before the status is looked at. *)
Theorem non_success_is_api_error (w : World) resp :
  (forall q, snd (serve (server w) q) = Received resp) ->
  is_success resp = false ->
  let e := match resp_body resp with
           | JsonText v => ApiError v
           | NotJson _ => InvalidRequest ReqDecode
           end in
  (forall before limit om, snd (list_all_stored_nft serve before limit om w) = Err e) /\
  (forall file, snd (upload_file serve file w) = Err e) /\
  (forall fs ns, (List.length fs <= List.length ns)%nat ->
     snd (upload_file_in_directory serve fs ns w) = Err e) /\
  (forall cid, snd (get_nft serve cid w) = Err e) /\
  (forall cid, snd (delete_nft serve cid w) = Err e) /\
  (forall cid, snd (check_nft serve cid w) = Err e).
Proof.
  intros Hsrv Hst e; subst e.
  repeat split; intros; single_op Hsrv; rewrite Hst;
    destruct (resp_body resp); reflexivity.
Qed.

(** ** C3: 2xx responses that do not decode. *)

(** Claim C3 (corrected).  For every single-request method and a server
    answering it with a 2xx response: a body that is not JSON text gives
    [InvalidRequest] (reqwest's decode error), and a JSON body that does
    not decode into the method's typed response gives [InvalidJson]. *)
Theorem success_decode_failures (w : World) resp :
  (forall q, snd (serve (server w) q) = Received resp) ->
  is_success resp = true ->
  (forall raw, resp_body resp = NotJson raw ->
     let e := InvalidRequest ReqDecode in
     (forall before limit om, snd (list_all_stored_nft serve before limit om w) = Err e) /\
     (forall file, snd (upload_file serve file w) = Err e) /\
     (forall fs ns, (List.length fs <= List.length ns)%nat ->
        snd (upload_file_in_directory serve fs ns w) = Err e) /\
     (forall cid, snd (get_nft serve cid w) = Err e) /\
     (forall cid, snd (delete_nft serve cid w) = Err e) /\
     (forall cid, snd (check_nft serve cid w) = Err e)) /\
  (forall v, resp_body resp = JsonText v ->
     let e := InvalidJson SerdeDecode in
     (ListNftResponse.decode v = None ->
        forall before limit om, snd (list_all_stored_nft serve before limit om w) = Err e) /\
     (StoreNftResponse.decode v = None ->
        (forall file, snd (upload_file serve file w) = Err e) /\
        (forall fs ns, (List.length fs <= List.length ns)%nat ->
           snd (upload_file_in_directory serve fs ns w) = Err e)) /\
     (GetNftResponse.decode v = None -> forall cid, snd (get_nft serve cid w) = Err e) /\
     (DeleteNftResponse.decode v = None -> forall cid, snd (delete_nft serve cid w) = Err e) /\
     (CheckCidNftResponse.decode v = None -> forall cid, snd (check_nft serve cid w) = Err e)).
Proof.
  intros Hsrv Hst; split.
  - intros raw Hb e; subst e.
    repeat split; intros; single_op Hsrv; rewrite Hb; reflexivity.
  - intros v Hb e; subst e.
    repeat split; intros; single_op Hsrv; rewrite Hb; cbn; rewrite Hst; cbn;
      unfold from_value;
      match goal with Hd : _ v = None |- _ => rewrite Hd end; reflexivity.
Qed.

(** ** C4 and C5: listing and fetching. *)

Lemma string_app_assoc (a b c : string) : (a ++ b) ++ c = a ++ (b ++ c).
Proof. induction a as [|ch a IH]; simpl; [reflexivity | rewrite IH; reflexivity]. Qed.

Lemma string_app_empty_r (a : string) : a ++ "" = a.
Proof. induction a as [|ch a IH]; simpl; [reflexivity | rewrite IH; reflexivity]. Qed.

(** Whatever the server answered, a successful listing is the decoded
    page, filtered and decorated as [only_metadata] asks. *)
Lemma list_all_ok_shape (w w' : World) before limit om r :
  list_all_stored_nft serve before limit om w = (w', Ok r) ->
  exists body,
    r = ListNftResponse.mkListNftResponse (ListNftResponse.ok body)
          (if om then map metadata_links (filter has_metadata_first (ListNftResponse.value body))
           else map plain_links (ListNftResponse.value body)).
Proof.
  cbv beta zeta delta [list_all_stored_nft bind get_self]; cbn [ret].
  destruct (send serve _ w) as [w1 [resp | e | m]]; try discriminate.
  unfold read_json; destruct (resp_body resp) as [v | raw]; cbn; [| discriminate].
  destruct (negb (is_success resp)); cbn; [discriminate |].
  unfold from_value; destruct (ListNftResponse.decode v) as [body |]; cbn; [| discriminate].
  destruct om; intros H; inversion H; subst; exists body; reflexivity.
Qed.

Lemma get_nft_ok_shape (w w' : World) cid r :
  get_nft serve cid w = (w', Ok r) ->
  exists body,
    r = GetNftResponse.mkGetNftResponse (GetNftResponse.ok body)
          (plain_links (GetNftResponse.value body)).
Proof.
  cbv beta zeta delta [get_nft bind get_self]; cbn [ret].
  destruct (send serve _ w) as [w1 [resp | e | m]]; try discriminate.
  unfold read_json; destruct (resp_body resp) as [v | raw]; cbn; [| discriminate].
  destruct (negb (is_success resp)); cbn; [discriminate |].
  unfold from_value; destruct (GetNftResponse.decode v) as [body |]; cbn; [| discriminate].
  intros H; inversion H; subst; exists body; reflexivity.
Qed.

Lemma metadata_links_link f :
  Value.link (metadata_links f) = convenience_links (Value.cid (metadata_links f)) "/metadata.json".
Proof.
  unfold metadata_links, convenience_links; simpl.
  rewrite !string_app_assoc; reflexivity.
Qed.

Lemma plain_links_link f :
  Value.link (plain_links f) = convenience_links (Value.cid (plain_links f)) "".
Proof.
  unfold plain_links, convenience_links; simpl.
  rewrite !string_app_empty_r; reflexivity.
Qed.

(** Claim C4.  With [only_metadata = true], a 2xx answer that decodes to
    [body] yields exactly the entries of [body] whose [files] array is
    non-empty and starts with a file named "metadata.json", in their
    order, each decorated with its links; the [ok] flag is kept. *)
Theorem list_only_metadata_filter (w : World) before limit resp v body :
  (forall q, snd (serve (server w) q) = Received resp) ->
  is_success resp = true ->
  resp_body resp = JsonText v ->
  ListNftResponse.decode v = Some body ->
  exists r,
    snd (list_all_stored_nft serve before limit true w) = Ok r /\
    ListNftResponse.ok r = ListNftResponse.ok body /\
    ListNftResponse.value r =
      map metadata_links (filter has_metadata_first (ListNftResponse.value body)) /\
    (forall x, In x (ListNftResponse.value r) <->
       exists e first rest,
         In e (ListNftResponse.value body) /\ Value.files e = first :: rest /\
         Files.name first = "metadata.json" /\ x = metadata_links e).
Proof.
  intros Hsrv Hst Hb Hd. single_op Hsrv. rewrite Hb; cbn; rewrite Hst; cbn.
  unfold from_value; rewrite Hd; cbn.
  eexists; split; [reflexivity |]. cbn. split; [reflexivity |]. split; [reflexivity |].
  intros x; rewrite in_map_iff; split.
  - intros [e [Hx Hin]]. apply filter_In in Hin as [Hin Hp].
    unfold has_metadata_first in Hp.
    destruct (Value.files e) as [| first rest] eqn:Ef; [discriminate |].
    apply String.eqb_eq in Hp. exists e, first, rest; auto.
  - intros [e [first [rest [Hin [Hf [Hn Hx]]]]]]. exists e; split; [symmetry; exact Hx |].
    apply filter_In; split; [exact Hin |].
    unfold has_metadata_first; rewrite Hf, Hn; reflexivity.
Qed.

(** Claim C5.  Every entry returned by a successful [list_all_stored_nft]
    carries exactly the three links derived from its identifier (gateway,
    public gateway, native scheme, with "/metadata.json" appended when
    [only_metadata] is set), and so does the item returned by a
    successful [get_nft]; nothing of the server's [link] value is kept. *)
Theorem convenience_links_exact (w w' : World) :
  (forall before limit om r,
     list_all_stored_nft serve before limit om w = (w', Ok r) ->
     forall x, In x (ListNftResponse.value r) ->
       Value.link x =
       convenience_links (Value.cid x) (if om then "/metadata.json" else "")) /\
  (forall cid r,
     get_nft serve cid w = (w', Ok r) ->
     Value.link (GetNftResponse.value r) =
     convenience_links (Value.cid (GetNftResponse.value r)) "").
Proof.
  split.
  - intros before limit om r H x Hx.
    destruct (list_all_ok_shape w w' before limit om r H) as [body ->].
    destruct om; simpl in Hx; apply in_map_iff in Hx as [e [<- _]].
    + apply metadata_links_link.
    + apply plain_links_link.
  - intros cid r H. destruct (get_nft_ok_shape w w' cid r H) as [body ->].
    apply plain_links_link.
Qed.

(** ** C6 and C10: [delete_all_nft]. *)

(** A successful listing logged exactly one exchange: its request, and a
    2xx JSON answer that decoded. *)
Lemma list_all_ok_log (w w1 : World) before limit om r :
  list_all_stored_nft serve before limit om w = (w1, Ok r) ->
  exists resp v body,
    log w1 = (log w ++
      [(mkRequest GET (url (handle w) ++ "/?before=" ++ opt_or_empty before ++ "&limit="
                       ++ opt_or_empty limit) (token (handle w)) NoBody, Received resp)])%list /\
    is_success resp = true /\ resp_body resp = JsonText v /\
    ListNftResponse.decode v = Some body /\
    r = ListNftResponse.mkListNftResponse (ListNftResponse.ok body)
          (if om then map metadata_links (filter has_metadata_first (ListNftResponse.value body))
           else map plain_links (ListNftResponse.value body)).
Proof.
  cbv beta zeta delta [list_all_stored_nft bind get_self]; cbn [ret].
  unfold send.
  destruct (serve (server w) _) as [s' [| resp]]; cbn; [discriminate |].
  unfold read_json; destruct (resp_body resp) as [v | raw] eqn:Hb; cbn; [| discriminate].
  destruct (is_success resp) eqn:Hst; cbn; [| discriminate].
  unfold from_value; destruct (ListNftResponse.decode v) as [body |] eqn:Hd; cbn;
    [| discriminate].
  destruct om; unfold ret; intros H; inversion H; subst;
    exists resp, v, body; repeat split; auto.
Qed.

(** [delete_nft] always logs exactly one exchange, the DELETE of [cid]. *)
Lemma delete_nft_log (w : World) cid :
  exists o, log (fst (delete_nft serve cid w)) =
            (log w ++ [(delete_request (handle w) cid, o)])%list.
Proof.
  cbv beta zeta delta [delete_nft bind get_self]; cbn [ret].
  unfold send.
  destruct (serve (server w) _) as [s' [| resp]]; cbn; [eexists; reflexivity |].
  unfold read_json; destruct (resp_body resp); cbn; [| eexists; reflexivity].
  destruct (is_success resp); cbn; [| eexists; reflexivity].
  unfold from_value; destruct (DeleteNftResponse.decode v); cbn; eexists; reflexivity.
Qed.

(** A successful inner loop deleted every entry by its [cid], in order. *)
Lemma delete_each_log es (w w' : World) :
  delete_each serve es w = (w', Ok tt) ->
  exists os, List.length os = List.length es /\
    log w' = (log w ++ combine (map (fun e => delete_request (handle w) (Value.cid e)) es) os)%list.
Proof.
  revert w; induction es as [| e rest IH]; intros w H; simpl in H.
  - inversion H; subst. exists []; split; [reflexivity | rewrite app_nil_r; reflexivity].
  - unfold bind in H.
    destruct (delete_nft_log w (Value.cid e)) as [o Ho].
    pose proof (kh_delete_nft (Value.cid e) w) as Hh.
    destruct (delete_nft serve (Value.cid e) w) as [w1 [d | err | m]]; try discriminate.
    simpl in Ho, Hh.
    destruct (IH w1 H) as [os [Hlen Hlog]].
    exists (o :: os); split; [simpl; rewrite Hlen; reflexivity |].
    rewrite Hlog, Ho, Hh, <- app_assoc; reflexivity.
Qed.

(** The inner loop stops at the first failed deletion, with its error. *)
Lemma delete_each_first_error pre x rest (w w1 w2 : World) e :
  delete_each serve pre w = (w1, Ok tt) ->
  delete_nft serve (Value.cid x) w1 = (w2, Err e) ->
  delete_each serve (pre ++ x :: rest)%list w = (w2, Err e).
Proof.
  revert w; induction pre as [| p pre' IH]; intros w Hpre Hx; simpl in Hpre |- *.
  - inversion Hpre; subst. unfold bind; rewrite Hx; reflexivity.
  - unfold bind in Hpre |- *.
    destruct (delete_nft serve (Value.cid p) w) as [w0 [d | err | m]]; try discriminate.
    exact (IH w0 Hpre Hx).
Qed.

(** A return of [delete_all_nft] is preceded by a listing answered with a
    decoded page that has [ok = true] and no entry. *)
Lemma delete_all_loop_stops fuel (w w' : World) :
  delete_all_loop serve fuel w = (w', Ok true) ->
  exists pre resp v body,
    log w' = (pre ++ [(page_request (handle w), Received resp)])%list /\
    is_success resp = true /\ resp_body resp = JsonText v /\
    ListNftResponse.decode v = Some body /\
    ListNftResponse.ok body = true /\ ListNftResponse.value body = [].
Proof.
  revert w; induction fuel as [| n IH]; intros w H; simpl in H; [discriminate |].
  unfold bind in H.
  pose proof (kh_list_all_stored_nft None (Some "100") false w) as Hh1.
  destruct (list_all_stored_nft serve None (Some "100") false w) as [w1 [nfts | e | m]]
    eqn:Hl; try discriminate.
  simpl in Hh1.
  destruct (ListNftResponse.ok nfts && Nat.leb (List.length (ListNftResponse.value nfts)) 0)
    eqn:Hstop.
  - inversion H; subst.
    destruct (list_all_ok_log w w' None (Some "100") false nfts Hl)
      as [resp [v [body [Hlog [Hst [Hb [Hd ->]]]]]]].
    simpl in Hstop. apply andb_true_iff in Hstop as [Hok Hlen].
    exists (log w), resp, v, body; repeat split; try assumption.
    destruct (ListNftResponse.value body); [reflexivity | discriminate].
  - pose proof (kh_delete_each (ListNftResponse.value nfts) w1) as Hh2.
    destruct (delete_each serve (ListNftResponse.value nfts) w1) as [w2 [u | e | m]];
      try discriminate.
    simpl in Hh2.
    destruct (IH w2 H) as [pre [resp [v [body [Hlog Hrest]]]]].
    exists pre, resp, v, body; split; [| exact Hrest].
    rewrite Hlog, Hh2, Hh1; reflexivity.
Qed.

(** While every listing succeeds without stopping the loop (its [ok] is
    false or it has entries) and every deletion succeeds,
    [delete_all_nft] never returns, however many rounds it is given. *)
Lemma delete_all_runs_on :
  (forall w, exists w1 nfts,
     list_all_stored_nft serve None (Some "100") false w = (w1, Ok nfts) /\
     (ListNftResponse.ok nfts = false \/ ListNftResponse.value nfts <> [])) ->
  (forall es w, exists w2, delete_each serve es w = (w2, Ok tt)) ->
  forall fuel w, snd (delete_all_nft serve fuel w) = Ok None.
Proof.
  intros Hlist Hdel fuel.
  assert (Hloop : forall w, snd (delete_all_loop serve fuel w) = Ok false).
  { induction fuel as [| n IH]; intro w; [reflexivity |].
    simpl; unfold bind.
    destruct (Hlist w) as [w1 [nfts [Hl Hcont]]]; rewrite Hl.
    replace (ListNftResponse.ok nfts && Nat.leb (List.length (ListNftResponse.value nfts)) 0)
      with false.
    - destruct (Hdel (ListNftResponse.value nfts) w1) as [w2 Hd]; rewrite Hd. apply IH.
    - destruct Hcont as [-> | Hne]; [reflexivity |].
      destruct (ListNftResponse.ok nfts), (ListNftResponse.value nfts); simpl;
        congruence. }
  intro w; unfold delete_all_nft, bind.
  specialize (Hloop w); destruct (delete_all_loop serve fuel w) as [w1 r].
  simpl in Hloop; subst r; reflexivity.
Qed.

(** Claim C6 (corrected).  [delete_all_nft] works in rounds: a listing
    with an empty [before] and [limit] 100, then a DELETE for the [cid]
    of every listed entry, in order.  (1) A listing that decodes to
    [ok = true] with no entry makes it return; (2) whenever it returns,
    the last exchange was such a listing; (3) a failed listing ends it with
    that error; (4) a listing with [ok = false] or with entries starts a
    round with one DELETE by [cid] for each listed entry, in order, then
    lists again; (5) a failed DELETE in that round ends it with that
    error; (6) while listings never stop it and deletions succeed, it runs
    on with no bound. *)
Theorem delete_all_rounds :
  (forall n (w w1 : World) nfts,
     list_all_stored_nft serve None (Some "100") false w = (w1, Ok nfts) ->
     ListNftResponse.ok nfts = true -> ListNftResponse.value nfts = [] ->
     delete_all_nft serve (S n) w = (w1, Ok (Some (DeleteNftResponse.mkDeleteNftResponse true)))) /\
  (forall fuel (w w' : World) r,
     delete_all_nft serve fuel w = (w', Ok (Some r)) ->
     exists pre resp v body,
       log w' = (pre ++ [(page_request (handle w), Received resp)])%list /\
       is_success resp = true /\ resp_body resp = JsonText v /\
       ListNftResponse.decode v = Some body /\
       ListNftResponse.ok body = true /\ ListNftResponse.value body = []) /\
  (forall n (w w1 : World) e,
     list_all_stored_nft serve None (Some "100") false w = (w1, Err e) ->
     delete_all_nft serve (S n) w = (w1, Err e)) /\
  (forall n (w w1 w2 : World) nfts,
     list_all_stored_nft serve None (Some "100") false w = (w1, Ok nfts) ->
     (ListNftResponse.ok nfts = false \/ ListNftResponse.value nfts <> []) ->
     delete_each serve (ListNftResponse.value nfts) w1 = (w2, Ok tt) ->
     (exists os, List.length os = List.length (ListNftResponse.value nfts) /\
        log w2 = (log w1 ++
          combine (map (fun e => delete_request (handle w) (Value.cid e))
                       (ListNftResponse.value nfts)) os)%list) /\
     delete_all_nft serve (S n) w = delete_all_nft serve n w2) /\
  (forall n (w w1 w1' w2 : World) nfts pre x rest e,
     list_all_stored_nft serve None (Some "100") false w = (w1, Ok nfts) ->
     (ListNftResponse.ok nfts = false \/ ListNftResponse.value nfts <> []) ->
     ListNftResponse.value nfts = (pre ++ x :: rest)%list ->
     delete_each serve pre w1 = (w1', Ok tt) ->
     delete_nft serve (Value.cid x) w1' = (w2, Err e) ->
     delete_all_nft serve (S n) w = (w2, Err e)) /\
  ((forall w, exists w1 nfts,
      list_all_stored_nft serve None (Some "100") false w = (w1, Ok nfts) /\
      (ListNftResponse.ok nfts = false \/ ListNftResponse.value nfts <> [])) ->
   (forall es w, exists w2, delete_each serve es w = (w2, Ok tt)) ->
   forall fuel w, snd (delete_all_nft serve fuel w) = Ok None).
Proof.
  split; [| split; [| split; [| split; [| split]]]].
  - intros n w w1 nfts Hl Hok Hv. unfold delete_all_nft, bind; simpl; unfold bind.
    rewrite Hl, Hok, Hv; reflexivity.
  - intros fuel w w' r H. unfold delete_all_nft, bind in H.
    destruct (delete_all_loop serve fuel w) as [w1 [[|] | e | m]] eqn:Hloop;
      try discriminate.
    inversion H; subst. exact (delete_all_loop_stops fuel w w' Hloop).
  - intros n w w1 e Hl. unfold delete_all_nft, bind; simpl; unfold bind.
    rewrite Hl; reflexivity.
  - intros n w w1 w2 nfts Hl Hcont Hd. split.
    + destruct (delete_each_log _ w1 w2 Hd) as [os [Hlen Hlog]].
      pose proof (kh_list_all_stored_nft None (Some "100") false w) as Hh.
      rewrite Hl in Hh; simpl in Hh. rewrite <- Hh. exists os; split; assumption.
    + unfold delete_all_nft, bind; simpl; unfold bind. rewrite Hl.
      replace (ListNftResponse.ok nfts && Nat.leb (List.length (ListNftResponse.value nfts)) 0)
        with false.
      * rewrite Hd; reflexivity.
      * destruct Hcont as [-> | Hne]; [reflexivity |].
        destruct (ListNftResponse.ok nfts), (ListNftResponse.value nfts); simpl;
          congruence.
  - intros n w w1 w1' w2 nfts pre x rest e Hl Hcont Hv Hpre Hx.
    unfold delete_all_nft, bind; simpl; unfold bind. rewrite Hl.
    replace (ListNftResponse.ok nfts && Nat.leb (List.length (ListNftResponse.value nfts)) 0)
      with false.
    + rewrite Hv, (delete_each_first_error pre x rest w1 w1' w2 e Hpre Hx); reflexivity.
    + destruct Hcont as [-> | Hne]; [reflexivity |].
      destruct (ListNftResponse.ok nfts), (ListNftResponse.value nfts); simpl;
        congruence.
  - exact delete_all_runs_on.
Qed.

(** Claim C10.  Whenever [delete_all_nft] returns successfully, its result
    is the locally built [DeleteNftResponse { ok: true }], whatever the
    server answered to the listings and deletions. *)
Theorem delete_all_result_ok_true fuel (w w' : World) r :
  delete_all_nft serve fuel w = (w', Ok (Some r)) ->
  r = DeleteNftResponse.mkDeleteNftResponse true.
Proof.
  unfold delete_all_nft, bind.
  destruct (delete_all_loop serve fuel w) as [w1 [[|] | e | m]]; intro H;
    inversion H; reflexivity.
Qed.

(** ** C8: the handle. *)

(** Claim C8.  No method of [NftStorage] writes the caller's handle: the
    client instance, URL and token are the same after the call as before,
    whatever the server answers (for [delete_all_nft], after any number of
    rounds). *)
Theorem handle_read_only :
  (forall before limit om, keeps_handle (list_all_stored_nft serve before limit om)) /\
  (forall file nft_name description, keeps_handle (store_nft serve file nft_name description)) /\
  (forall cid, keeps_handle (delete_nft serve cid)) /\
  (forall fuel, keeps_handle (delete_all_nft serve fuel)) /\
  (forall cid, keeps_handle (get_nft serve cid)) /\
  (forall file, keeps_handle (upload_file serve file)) /\
  (forall cid, keeps_handle (check_nft serve cid)) /\
  (forall files file_names, keeps_handle (upload_file_in_directory serve files file_names)) /\
  (forall files file_names nft_name description,
     keeps_handle (store_nft_in_directory serve files file_names nft_name description)).
Proof.
  repeat split; intros.
  all: first [ apply kh_list_all_stored_nft | apply kh_store_nft | apply kh_delete_nft
             | apply kh_delete_all_nft | apply kh_get_nft | apply kh_upload_file
             | apply kh_check_nft | apply kh_upload_file_in_directory
             | apply kh_store_nft_in_directory ].
Qed.

(** ** C9 and C1: uploads. *)

(** [upload_file] sends exactly one request, the raw bytes, and never
    panics. *)
Lemma upload_file_log (w : World) file :
  (forall m, snd (upload_file serve file w) <> Panic m) /\
  exists o, log (fst (upload_file serve file w)) =
            (log w ++ [(upload_request (handle w) (RawBody file), o)])%list.
Proof.
  cbv beta zeta delta [upload_file bind get_self]; cbn [ret]. unfold send.
  destruct (serve (server w) _) as [s' [| resp]]; cbn;
    [split; [discriminate | eexists; reflexivity] |].
  unfold read_json; destruct (resp_body resp) as [v | raw]; cbn;
    [| split; [discriminate | eexists; reflexivity]].
  destruct (is_success resp); cbn; [| split; [discriminate | eexists; reflexivity]].
  unfold from_value; destruct (StoreNftResponse.decode v); cbn;
    split; (discriminate || (eexists; reflexivity)).
Qed.

Lemma upload_dir_panics (w : World) files file_names :
  (List.length file_names < List.length files)%nat ->
  upload_file_in_directory serve files file_names w = (w, Panic "index out of bounds").
Proof.
  intro H. cbv beta zeta delta [upload_file_in_directory bind get_self]; cbn [ret].
  rewrite upload_form_panic by exact H. reflexivity.
Qed.

(** With enough file names, [upload_file_in_directory] sends exactly one
    request, the multipart form of the files, and never panics. *)
Lemma upload_dir_log (w : World) files file_names :
  (List.length files <= List.length file_names)%nat ->
  (forall m, snd (upload_file_in_directory serve files file_names w) <> Panic m) /\
  exists o, log (fst (upload_file_in_directory serve files file_names w)) =
     (log w ++ [(upload_request (handle w) (Multipart (form_parts files file_names)), o)])%list.
Proof.
  intro H. cbv beta zeta delta [upload_file_in_directory bind get_self]; cbn [ret].
  rewrite upload_form_ok by exact H. unfold send.
  destruct (serve (server w) _) as [s' [| resp]]; cbn;
    [split; [discriminate | eexists; reflexivity] |].
  unfold read_json; destruct (resp_body resp) as [v | raw]; cbn;
    [| split; [discriminate | eexists; reflexivity]].
  destruct (is_success resp); cbn; [| split; [discriminate | eexists; reflexivity]].
  unfold from_value; destruct (StoreNftResponse.decode v); cbn;
    split; (discriminate || (eexists; reflexivity)).
Qed.

(** Claim C9.  [upload_file_in_directory] indexes [file_names] at every
    index of [files]: with fewer names than files it panics before sending
    anything (and so does [store_nft_in_directory]); with at least as
    many names it never panics, and sends one part per file, named by the
    name at the same index. *)
Theorem upload_dir_index_bounds (w : World) files file_names nft_name description :
  ((List.length file_names < List.length files)%nat ->
     upload_file_in_directory serve files file_names w = (w, Panic "index out of bounds") /\
     store_nft_in_directory serve files file_names nft_name description w =
       (w, Panic "index out of bounds")) /\
  ((List.length files <= List.length file_names)%nat ->
     (forall m, snd (upload_file_in_directory serve files file_names w) <> Panic m) /\
     (forall m, snd (store_nft_in_directory serve files file_names nft_name description w)
                <> Panic m) /\
     exists o, log (fst (upload_file_in_directory serve files file_names w)) =
       (log w ++ [(upload_request (handle w) (Multipart (form_parts files file_names)), o)])%list).
Proof.
  split.
  - intro H. split; [exact (upload_dir_panics w files file_names H) |].
    unfold store_nft_in_directory, bind. rewrite (upload_dir_panics w files file_names H).
    reflexivity.
  - intro H. destruct (upload_dir_log w files file_names H) as [Hnp Hlog].
    split; [exact Hnp |]. split; [| exact Hlog].
    intros m. unfold store_nft_in_directory, bind.
    specialize (Hnp m).
    destruct (upload_file_in_directory serve files file_names w) as [w1 [r1 | e | m1]];
      simpl in *; [| discriminate | exact Hnp].
    match goal with
    | |- context [upload_file_in_directory serve ?fs ?ns w1] =>
        destruct (upload_dir_log w1 fs ns (le_n 1)) as [Hnp2 _];
        specialize (Hnp2 m);
        destruct (upload_file_in_directory serve fs ns w1) as [w2 [r2 | e2 | m2]];
        simpl in *; [discriminate | discriminate | exact Hnp2]
    end.
Qed.

Lemma nft_metadata_shape n d f :
  nft_metadata n d f = JObj [("description", JStr d); ("files", f); ("name", JStr n)].
Proof. reflexivity. Qed.

(** Claim C1 (corrected).  The metadata object has the caller's [name]
    and [description] and the given [files].  [store_nft]: when the first
    upload succeeds, exactly two uploads go out, the file's bytes and then
    the serialised metadata whose [files] is the first upload's [cid], and
    the result is the second upload's; when the first upload fails, its
    error is the result and nothing else is sent.
    [store_nft_in_directory]: the same with two multipart uploads, the
    second a single part "metadata.json" whose [files] lists
    "ipfs://<cid>/<name>" for each file of the first answer; when the
    first upload fails or panics, that is the result and nothing else is
    sent. *)
Theorem store_nft_two_uploads (w : World) file files file_names nft_name description :
  (forall n d f, get_field (nft_metadata n d f) "name" = Some (JStr n) /\
                 get_field (nft_metadata n d f) "description" = Some (JStr d) /\
                 get_field (nft_metadata n d f) "files" = Some f) /\
  (match upload_file serve file w with
   | (w1, Ok resp1) =>
       let meta := to_vec (nft_metadata nft_name description
                             (JStr (Value.cid (StoreNftResponse.value resp1)))) in
       store_nft serve file nft_name description w = upload_file serve meta w1 /\
       exists o1 o2, log (fst (store_nft serve file nft_name description w)) =
         (log w ++ [(upload_request (handle w) (RawBody file), o1);
                    (upload_request (handle w) (RawBody meta), o2)])%list
   | (w1, Err e) =>
       store_nft serve file nft_name description w = (w1, Err e) /\
       exists o1, log w1 = (log w ++ [(upload_request (handle w) (RawBody file), o1)])%list
   | (_, Panic _) => False
   end) /\
  (match upload_file_in_directory serve files file_names w with
   | (w1, Ok resp1) =>
       let cid := Value.cid (StoreNftResponse.value resp1) in
       let meta := to_vec (nft_metadata nft_name description
                     (JArr (map (fun f => JStr ("ipfs://" ++ cid ++ "/" ++ Files.name f))
                                (Value.files (StoreNftResponse.value resp1))))) in
       store_nft_in_directory serve files file_names nft_name description w =
         upload_file_in_directory serve [meta] ["metadata.json"] w1 /\
       exists o1 o2,
         log (fst (store_nft_in_directory serve files file_names nft_name description w)) =
         (log w ++ [(upload_request (handle w) (Multipart (form_parts files file_names)), o1);
                    (upload_request (handle w) (Multipart [mkPart "file" "metadata.json" meta]),
                     o2)])%list
   | (w1, Err e) =>
       store_nft_in_directory serve files file_names nft_name description w = (w1, Err e) /\
       exists o1, log w1 =
         (log w ++ [(upload_request (handle w) (Multipart (form_parts files file_names)), o1)])%list
   | (w1, Panic m) =>
       store_nft_in_directory serve files file_names nft_name description w = (w1, Panic m) /\
       log w1 = log w
   end).
Proof.
  split; [| split].
  - intros n d f; rewrite nft_metadata_shape; repeat split.
  - destruct (upload_file_log w file) as [Hnp [o1 Hlog1]].
    pose proof (kh_upload_file file w) as Hh.
    unfold store_nft, bind.
    destruct (upload_file serve file w) as [w1 [resp1 | e | m]]; simpl in Hnp, Hlog1, Hh.
    + cbv zeta.
      destruct (upload_file_log w1 (to_vec (nft_metadata nft_name description
                  (JStr (Value.cid (StoreNftResponse.value resp1)))))) as [_ [o2 Hlog2]].
      split.
      * destruct (upload_file serve _ w1) as [w2 [r2 | e2 | m2]]; reflexivity.
      * exists o1, o2.
        destruct (upload_file serve _ w1) as [w2 [r2 | e2 | m2]]; simpl in *;
          rewrite Hlog2, Hlog1, Hh, <- app_assoc; reflexivity.
    + split; [reflexivity | exists o1; exact Hlog1].
    + exact (Hnp m eq_refl).
  - destruct (Nat.lt_ge_cases (List.length file_names) (List.length files)) as [Hs | Hl].
    + unfold store_nft_in_directory, bind.
      rewrite (upload_dir_panics w files file_names Hs). split; reflexivity.
    + destruct (upload_dir_log w files file_names Hl) as [Hnp [o1 Hlog1]].
      pose proof (kh_upload_file_in_directory files file_names w) as Hh.
      unfold store_nft_in_directory, bind.
      destruct (upload_file_in_directory serve files file_names w) as [w1 [resp1 | e | m]];
        simpl in Hnp, Hlog1, Hh.
      * cbv zeta.
        assert (Hm : forall (l : list Files.Files) c,
                   map JStr (map (fun f => "ipfs://" ++ c ++ "/" ++ f) (map Files.name l)) =
                   map (fun f => JStr ("ipfs://" ++ c ++ "/" ++ Files.name f)) l)
          by (intros; rewrite !map_map; reflexivity).
        rewrite Hm.
        match goal with
        | |- context [upload_file_in_directory serve ?fs ?ns w1] =>
            destruct (upload_dir_log w1 fs ns (le_n 1)) as [_ [o2 Hlog2]];
            split;
            [ destruct (upload_file_in_directory serve fs ns w1) as [w2 [r2 | e2 | m2]];
              reflexivity
            | exists o1, o2;
              destruct (upload_file_in_directory serve fs ns w1) as [w2 [r2 | e2 | m2]];
              simpl in *; rewrite Hlog2, Hlog1, Hh, <- app_assoc; reflexivity ]
        end.
      * split; [reflexivity | exists o1; exact Hlog1].
      * exfalso; exact (Hnp m eq_refl).
Qed.

(** ** C7: absent fields. *)

Lemma lookup_remove_key k k' kvs :
  lookup k' (remove_key k kvs) = if String.eqb k k' then None else lookup k' kvs.
Proof.
  induction kvs as [| [k0 v0] rest IH]; simpl.
  - destruct (String.eqb k k'); reflexivity.
  - destruct (String.eqb_spec k k0) as [-> | Hne]; simpl.
    + rewrite IH. destruct (String.eqb_spec k0 k') as [-> | Hne'].
      * reflexivity.
      * destruct (String.eqb_spec k' k0) as [-> | _]; [congruence | reflexivity].
    + destruct (String.eqb_spec k' k0) as [-> | Hne'].
      * destruct (String.eqb_spec k k0); [congruence | reflexivity].
      * exact IH.
Qed.

(** Removing a key never makes a defaulted field fail. *)
Lemma obj_field_remove {A} kvs k f (dec : json -> option A) d x :
  obj_field kvs f dec (Some d) = Some x ->
  exists y, obj_field (remove_key k kvs) f dec (Some d) = Some y.
Proof.
  unfold obj_field; rewrite lookup_remove_key.
  destruct (String.eqb k f); [eexists; reflexivity | intro H; exists x; exact H].
Qed.

Ltac remove_fields k :=
  repeat match goal with
  | H : match obj_field ?kvs ?f ?dec (Some ?d) with _ => _ end = Some _ |- _ =>
      let x := fresh "x" in
      let E := fresh "E" in
      destruct (obj_field kvs f dec (Some d)) as [x |] eqn:E; [| discriminate];
      cbv beta iota in H;
      let y := fresh "y" in
      let E' := fresh "E" in
      destruct (obj_field_remove kvs k f dec d x E) as [y E'];
      rewrite E'; cbv beta iota
  end;
  eexists; reflexivity.

Ltac required_fields H :=
  cbv beta iota delta [obj_field]; rewrite H;
  try (destruct (lookup "ok" _) as [j |]; [destruct (dec_bool j) |]); reflexivity.

(** A decoded record whose key [k] is absent holds the default there. *)
Ltac absent_proj H :=
  repeat match type of H with
  | match obj_field ?kvs ?f ?dec ?d with _ => _ end = Some _ =>
      let x := fresh "x" in
      let E := fresh "E" in
      destruct (obj_field kvs f dec d) as [x |] eqn:E; [cbv beta iota in H | discriminate H]
  end;
  let Hr := fresh "Hr" in
  injection H as Hr; subst;
  repeat split;
  let Hk := fresh "Hk" in
  intro Hk;
  match type of Hk with
  | lookup ?k ?kvs = None =>
      match goal with
      | E : obj_field kvs k _ _ = Some _ |- _ =>
          unfold obj_field in E; rewrite Hk in E; injection E as <-; reflexivity
      end
  end.

(** Claim C7 (corrected).  The records with [#[serde(default)]]
    ([ListNftResponse], [Value], [CheckNFTValue], [Pin], [Files],
    [Deals]) decode an empty object to their default, and an object that
    decodes still decodes with any key removed: an absent field takes its
    default instead of failing.  In any object these records decode, each
    field whose key is absent holds its empty/zero value ([""], [0],
    [false], [[]], the default [Pin]).  The other envelopes ([StoreNftResponse],
    [GetNftResponse], [CheckCidNftResponse], [DeleteNftResponse]) have no
    [#[serde(default)]]: an object without "ok" (or, except for
    [DeleteNftResponse], without "value") does not decode. *)
Theorem absent_field_defaults :
  (Files.decode (JObj []) = Some Files.default /\
   Pin.decode (JObj []) = Some Pin.default /\
   Deals.decode (JObj []) = Some Deals.default /\
   Value.decode (JObj []) = Some Value.default /\
   CheckNFTValue.decode (JObj []) = Some CheckNFTValue.default /\
   ListNftResponse.decode (JObj []) = Some ListNftResponse.default) /\
  (forall kvs k,
     (forall r, Files.decode (JObj kvs) = Some r ->
        exists r', Files.decode (JObj (remove_key k kvs)) = Some r') /\
     (forall r, Pin.decode (JObj kvs) = Some r ->
        exists r', Pin.decode (JObj (remove_key k kvs)) = Some r') /\
     (forall r, Deals.decode (JObj kvs) = Some r ->
        exists r', Deals.decode (JObj (remove_key k kvs)) = Some r') /\
     (forall r, Value.decode (JObj kvs) = Some r ->
        exists r', Value.decode (JObj (remove_key k kvs)) = Some r') /\
     (forall r, CheckNFTValue.decode (JObj kvs) = Some r ->
        exists r', CheckNFTValue.decode (JObj (remove_key k kvs)) = Some r') /\
     (forall r, ListNftResponse.decode (JObj kvs) = Some r ->
        exists r', ListNftResponse.decode (JObj (remove_key k kvs)) = Some r')) /\
  (forall kvs, lookup "ok" kvs = None \/ lookup "value" kvs = None ->
     StoreNftResponse.decode (JObj kvs) = None /\
     GetNftResponse.decode (JObj kvs) = None /\
     CheckCidNftResponse.decode (JObj kvs) = None) /\
  (forall kvs, lookup "ok" kvs = None -> DeleteNftResponse.decode (JObj kvs) = None) /\
  (forall kvs,
     (forall r, Files.decode (JObj kvs) = Some r ->
        (lookup "name" kvs = None -> Files.name r = "") /\
        (lookup "file_type" kvs = None -> Files.file_type r = "")) /\
     (forall r, Pin.decode (JObj kvs) = Some r ->
        (lookup "cid" kvs = None -> Pin.cid r = "") /\
        (lookup "status" kvs = None -> Pin.status r = "") /\
        (lookup "created" kvs = None -> Pin.created r = "") /\
        (lookup "size" kvs = None -> Pin.size r = 0)) /\
     (forall r, Deals.decode (JObj kvs) = Some r ->
        (lookup "batchRootCid" kvs = None -> Deals.batch_root_cid r = "") /\
        (lookup "lastChanged" kvs = None -> Deals.last_changed r = "") /\
        (lookup "miner" kvs = None -> Deals.miner r = "") /\
        (lookup "pieceCid" kvs = None -> Deals.piece_cid r = "") /\
        (lookup "status" kvs = None -> Deals.status r = "") /\
        (lookup "statusText" kvs = None -> Deals.status_text r = "") /\
        (lookup "chainDealID" kvs = None -> Deals.chain_deal_id r = 0) /\
        (lookup "dealActivation" kvs = None -> Deals.deal_activation r = "") /\
        (lookup "dealExpiration" kvs = None -> Deals.deal_expiration r = "") /\
        (lookup "datamodelSelector" kvs = None -> Deals.data_model_selector r = "")) /\
     (forall r, Value.decode (JObj kvs) = Some r ->
        (lookup "cid" kvs = None -> Value.cid r = "") /\
        (lookup "size" kvs = None -> Value.size r = 0) /\
        (lookup "created" kvs = None -> Value.created r = "") /\
        (lookup "file_type" kvs = None -> Value.file_type r = "") /\
        (lookup "scope" kvs = None -> Value.scope r = "") /\
        (lookup "pin" kvs = None -> Value.pin r = Pin.mkPin "" "" "" 0) /\
        (lookup "files" kvs = None -> Value.files r = []) /\
        (lookup "deals" kvs = None -> Value.deals r = []) /\
        (lookup "link" kvs = None -> Value.link r = [])) /\
     (forall r, CheckNFTValue.decode (JObj kvs) = Some r ->
        (lookup "cid" kvs = None -> CheckNFTValue.cid r = "") /\
        (lookup "pin" kvs = None -> CheckNFTValue.pin r = Pin.mkPin "" "" "" 0) /\
        (lookup "deals" kvs = None -> CheckNFTValue.deals r = [])) /\
     (forall r, ListNftResponse.decode (JObj kvs) = Some r ->
        (lookup "ok" kvs = None -> ListNftResponse.ok r = false) /\
        (lookup "value" kvs = None -> ListNftResponse.value r = []))).
Proof.
  split; [repeat split |].
  split.
  - intros kvs k; repeat split; intros r H.
    + cbv beta iota delta [Files.decode] in H |- *; remove_fields k.
    + cbv beta iota delta [Pin.decode] in H |- *; remove_fields k.
    + cbv beta iota delta [Deals.decode] in H |- *; remove_fields k.
    + cbv beta iota delta [Value.decode] in H |- *; remove_fields k.
    + cbv beta iota delta [CheckNFTValue.decode] in H |- *; remove_fields k.
    + cbv beta iota delta [ListNftResponse.decode] in H |- *; remove_fields k.
  - split.
    + intros kvs [H | H]; repeat split.
      all: cbv beta iota delta [StoreNftResponse.decode GetNftResponse.decode
                                CheckCidNftResponse.decode];
           required_fields H.
    + split.
      * intros kvs H. cbv beta iota delta [DeleteNftResponse.decode]; required_fields H.
      * intros kvs; refine (conj _ (conj _ (conj _ (conj _ (conj _ _))))); intros r H.
        -- cbv beta iota delta [Files.decode] in H; absent_proj H.
        -- cbv beta iota delta [Pin.decode] in H; absent_proj H.
        -- cbv beta iota delta [Deals.decode] in H; absent_proj H.
        -- cbv beta iota delta [Value.decode] in H; absent_proj H.
        -- cbv beta iota delta [CheckNFTValue.decode] in H; absent_proj H.
        -- cbv beta iota delta [ListNftResponse.decode] in H; absent_proj H.
Qed.

(** ** Serialisation and deserialisation of the records. *)


Lemma dec_list_map {A} (dec : json -> option A) (enc : A -> json) xs :
  (forall x, In x xs -> dec (enc x) = Some x) ->
  dec_list dec (map enc xs) = Some xs.
Proof.
  induction xs as [| x rest IH]; intro H; simpl; [reflexivity |].
  rewrite (H x (or_introl eq_refl)), IH; [reflexivity |].
  intros y Hy; apply H; right; exact Hy.
Qed.

Lemma i32_fits_dec n : i32_fits n = true -> dec_i32 (JNum n) = Some n.
Proof. unfold i32_fits, dec_i32; intros ->; reflexivity. Qed.

Ltac rt_unfold enc dec :=
  cbv beta iota zeta delta [enc dec json_object fold_left map_insert fst snd obj_field dec_vec];
  cbn -[dec_i32 dec_list Files_to_value Pin_to_value Deals_to_value Value_to_value
        CheckNFTValue_to_value Files.decode Pin.decode Deals.decode Value.decode
        CheckNFTValue.decode].

Lemma Files_rt f : Files.decode (Files_to_value f) = Some f.
Proof. destruct f; reflexivity. Qed.

Lemma Pin_rt p : Pin_fits p = true -> Pin.decode (Pin_to_value p) = Some p.
Proof.
  destruct p as [a b c n]; unfold Pin_fits; simpl; intro H.
  rt_unfold Pin_to_value Pin.decode. rewrite (i32_fits_dec n H). reflexivity.
Qed.

Lemma Deals_rt d : Deals_fits d = true -> Deals.decode (Deals_to_value d) = Some d.
Proof.
  destruct d; unfold Deals_fits; simpl; intro H.
  rt_unfold Deals_to_value Deals.decode. rewrite (i32_fits_dec _ H). reflexivity.
Qed.

Lemma Deals_list_rt ds :
  forallb Deals_fits ds = true ->
  dec_list Deals.decode (map Deals_to_value ds) = Some ds.
Proof.
  intro H; apply dec_list_map; intros d Hd; apply Deals_rt.
  rewrite forallb_forall in H; exact (H d Hd).
Qed.

Lemma Value_rt v : Value_fits v = true -> Value.decode (Value_to_value v) = Some v.
Proof.
  destruct v as [cid size created ft scope pin files deals link]; unfold Value_fits; simpl.
  intro H; apply andb_true_iff in H as [H Hd]; apply andb_true_iff in H as [Hs Hp].
  rt_unfold Value_to_value Value.decode.
  rewrite (i32_fits_dec _ Hs), (Pin_rt _ Hp), (Deals_list_rt _ Hd).
  rewrite (dec_list_map Files.decode Files_to_value files (fun f _ => Files_rt f)).
  rewrite (dec_list_map dec_string JStr link (fun s _ => eq_refl)).
  reflexivity.
Qed.

Lemma CheckNFTValue_rt v :
  CheckNFTValue_fits v = true -> CheckNFTValue.decode (CheckNFTValue_to_value v) = Some v.
Proof.
  destruct v as [cid pin deals]; unfold CheckNFTValue_fits; simpl.
  intro H; apply andb_true_iff in H as [Hp Hd].
  rt_unfold CheckNFTValue_to_value CheckNFTValue.decode.
  rewrite (Pin_rt _ Hp), (Deals_list_rt _ Hd). reflexivity.
Qed.

(** Serialising a record with [serde_json::to_value] and deserialising
    the result with [serde_json::from_value] gives it back, provided its
    [i32] fields are in range. *)
Theorem records_roundtrip :
  (forall f, Files.decode (Files_to_value f) = Some f) /\
  (forall p, Pin_fits p = true -> Pin.decode (Pin_to_value p) = Some p) /\
  (forall d, Deals_fits d = true -> Deals.decode (Deals_to_value d) = Some d) /\
  (forall v, Value_fits v = true -> Value.decode (Value_to_value v) = Some v) /\
  (forall v, CheckNFTValue_fits v = true ->
     CheckNFTValue.decode (CheckNFTValue_to_value v) = Some v).
Proof.
  exact (conj Files_rt (conj Pin_rt (conj Deals_rt (conj Value_rt CheckNFTValue_rt)))).
Qed.

(** Serialising a response envelope with [serde_json::to_value] and
    deserialising the result with [serde_json::from_value] gives it back,
    provided the [i32] fields inside are in range. *)
Theorem envelopes_roundtrip :
  (forall r, forallb Value_fits (ListNftResponse.value r) = true ->
     ListNftResponse.decode (ListNftResponse_to_value r) = Some r) /\
  (forall r, Value_fits (StoreNftResponse.value r) = true ->
     StoreNftResponse.decode (StoreNftResponse_to_value r) = Some r) /\
  (forall r, Value_fits (GetNftResponse.value r) = true ->
     GetNftResponse.decode (GetNftResponse_to_value r) = Some r) /\
  (forall r, DeleteNftResponse.decode (DeleteNftResponse_to_value r) = Some r) /\
  (forall r, CheckNFTValue_fits (CheckCidNftResponse.value r) = true ->
     CheckCidNftResponse.decode (CheckCidNftResponse_to_value r) = Some r).
Proof.
  repeat split.
  - intros [ok vs] H; simpl in H.
    rt_unfold ListNftResponse_to_value ListNftResponse.decode.
    rewrite (dec_list_map Value.decode Value_to_value vs); [reflexivity |].
    intros v Hv; apply Value_rt; rewrite forallb_forall in H; exact (H v Hv).
  - intros [ok v] H; simpl in H.
    rt_unfold StoreNftResponse_to_value StoreNftResponse.decode.
    rewrite (Value_rt _ H); reflexivity.
  - intros [ok v] H; simpl in H.
    rt_unfold GetNftResponse_to_value GetNftResponse.decode.
    rewrite (Value_rt _ H); reflexivity.
  - intros [ok]; reflexivity.
  - intros [ok v] H; simpl in H.
    rt_unfold CheckCidNftResponse_to_value CheckCidNftResponse.decode.
    rewrite (CheckNFTValue_rt _ H); reflexivity.
Qed.

Ltac drop_unknown :=
  let Hu := fresh "Hu" in
  intros ?u ?j ?kvs Hu;
  cbv beta iota delta [Files.decode Pin.decode Deals.decode Value.decode CheckNFTValue.decode
    ListNftResponse.decode StoreNftResponse.decode GetNftResponse.decode
    DeleteNftResponse.decode CheckCidNftResponse.decode obj_field];
  cbn [lookup];
  repeat match goal with
  | |- context [String.eqb ?k ?u'] =>
      let E := fresh in
      assert (E : String.eqb k u' = false)
        by (apply String.eqb_neq; intros <-; apply Hu; simpl; auto 20);
      rewrite E
  end; reflexivity.

(** Deserialisation ignores keys that are not fields of the record
    (no [#[serde(deny_unknown_fields)]]); for [Deals] the fields are the
    renamed camelCase keys, so its snake_case Rust names are ignored too. *)
Theorem unknown_keys :
  (forall u j kvs, ~ In u ["name"; "file_type"] ->
     Files.decode (JObj ((u, j) :: kvs)) = Files.decode (JObj kvs)) /\
  (forall u j kvs, ~ In u ["cid"; "status"; "created"; "size"] ->
     Pin.decode (JObj ((u, j) :: kvs)) = Pin.decode (JObj kvs)) /\
  (forall u j kvs, ~ In u ["batchRootCid"; "lastChanged"; "miner"; "pieceCid"; "status";
                           "statusText"; "chainDealID"; "dealActivation"; "dealExpiration";
                           "datamodelSelector"] ->
     Deals.decode (JObj ((u, j) :: kvs)) = Deals.decode (JObj kvs)) /\
  (forall u j kvs, ~ In u ["cid"; "size"; "created"; "file_type"; "scope"; "pin"; "files";
                           "deals"; "link"] ->
     Value.decode (JObj ((u, j) :: kvs)) = Value.decode (JObj kvs)) /\
  (forall u j kvs, ~ In u ["cid"; "pin"; "deals"] ->
     CheckNFTValue.decode (JObj ((u, j) :: kvs)) = CheckNFTValue.decode (JObj kvs)) /\
  (forall u j kvs, ~ In u ["ok"; "value"] ->
     ListNftResponse.decode (JObj ((u, j) :: kvs)) = ListNftResponse.decode (JObj kvs)) /\
  (forall u j kvs, ~ In u ["ok"; "value"] ->
     StoreNftResponse.decode (JObj ((u, j) :: kvs)) = StoreNftResponse.decode (JObj kvs)) /\
  (forall u j kvs, ~ In u ["ok"; "value"] ->
     GetNftResponse.decode (JObj ((u, j) :: kvs)) = GetNftResponse.decode (JObj kvs)) /\
  (forall u j kvs, ~ In u ["ok"] ->
     DeleteNftResponse.decode (JObj ((u, j) :: kvs)) = DeleteNftResponse.decode (JObj kvs)) /\
  (forall u j kvs, ~ In u ["ok"; "value"] ->
     CheckCidNftResponse.decode (JObj ((u, j) :: kvs)) = CheckCidNftResponse.decode (JObj kvs)).
Proof. repeat split; drop_unknown. Qed.

(** every branch of a chain of optional steps: all end in [None]. *)
Ltac all_none :=
  repeat (match goal with
          | |- context [match ?e with Some _ => _ | None => _ end] => destruct e
          end; try reflexivity).

Ltac null_field :=
  let k := fresh "k" in let kvs := fresh "kvs" in
  let Hk := fresh "Hk" in let Hn := fresh "Hn" in
  intros k kvs Hk Hn; simpl in Hk;
  repeat (destruct Hk as [<- | Hk]); [.. | contradiction];
  cbv beta iota delta [Files.decode Pin.decode Deals.decode Value.decode CheckNFTValue.decode
    ListNftResponse.decode StoreNftResponse.decode GetNftResponse.decode
    DeleteNftResponse.decode CheckCidNftResponse.decode obj_field];
  rewrite Hn; cbn [dec_string dec_bool dec_i32 dec_vec Pin.decode Value.decode
                   CheckNFTValue.decode];
  all_none.

(** A field present with the value [null] is not treated as absent: even
    in a record with [#[serde(default)]], it makes the decode fail. *)
Theorem null_is_not_absent :
  (forall k kvs, In k ["name"; "file_type"] -> lookup k kvs = Some JNull ->
     Files.decode (JObj kvs) = None) /\
  (forall k kvs, In k ["cid"; "status"; "created"; "size"] -> lookup k kvs = Some JNull ->
     Pin.decode (JObj kvs) = None) /\
  (forall k kvs, In k ["batchRootCid"; "lastChanged"; "miner"; "pieceCid"; "status";
                       "statusText"; "chainDealID"; "dealActivation"; "dealExpiration";
                       "datamodelSelector"] -> lookup k kvs = Some JNull ->
     Deals.decode (JObj kvs) = None) /\
  (forall k kvs, In k ["cid"; "size"; "created"; "file_type"; "scope"; "pin"; "files";
                       "deals"; "link"] -> lookup k kvs = Some JNull ->
     Value.decode (JObj kvs) = None) /\
  (forall k kvs, In k ["cid"; "pin"; "deals"] -> lookup k kvs = Some JNull ->
     CheckNFTValue.decode (JObj kvs) = None) /\
  (forall k kvs, In k ["ok"; "value"] -> lookup k kvs = Some JNull ->
     ListNftResponse.decode (JObj kvs) = None) /\
  (forall k kvs, In k ["ok"; "value"] -> lookup k kvs = Some JNull ->
     StoreNftResponse.decode (JObj kvs) = None) /\
  (forall k kvs, In k ["ok"; "value"] -> lookup k kvs = Some JNull ->
     GetNftResponse.decode (JObj kvs) = None) /\
  (forall k kvs, In k ["ok"] -> lookup k kvs = Some JNull ->
     DeleteNftResponse.decode (JObj kvs) = None) /\
  (forall k kvs, In k ["ok"; "value"] -> lookup k kvs = Some JNull ->
     CheckCidNftResponse.decode (JObj kvs) = None).
Proof. repeat split; null_field; reflexivity. Qed.

Ltac split_opts :=
  repeat (cbv beta iota zeta;
          match goal with
          | |- context [match ?e with Some _ => _ | None => _ end] =>
              lazymatch e with
              | context [match _ with _ => _ end] => fail
              | _ => let E := fresh "E" in destruct e eqn:E
              end
          end);
  try reflexivity.

Ltac unfold_decoders dec :=
  cbv beta iota delta [dec obj_field seq_field seq_end];
  cbn [lookup combine String.eqb Ascii.eqb Bool.eqb].

Ltac peel_list := match goal with xs : list json |- _ => destruct xs end.

Tactic Notation "seq_form" constr(dec) int_or_var(n) :=
  split;
  [ intros ? H;
    do n (peel_list; [unfold_decoders dec; split_opts |]);
    peel_list; [unfold_decoders dec; split_opts | simpl in H; lia]
  | intros ? H;
    do n (peel_list; [simpl in H; lia |]);
    peel_list; [simpl in H; lia |];
    unfold_decoders dec; split_opts ].

(** A derived [Deserialize] also accepts a JSON array: its elements are
    the fields in declaration order (missing trailing ones as if absent
    from an object), and an array longer than the record fails. *)
Theorem seq_form_positional :
  ((forall xs, (List.length xs <= 2)%nat ->
      Files.decode (JArr xs) = Files.decode (JObj (combine ["name"; "file_type"] xs))) /\
   (forall xs, (2 < List.length xs)%nat -> Files.decode (JArr xs) = None)) /\
  ((forall xs, (List.length xs <= 4)%nat ->
      Pin.decode (JArr xs) =
      Pin.decode (JObj (combine ["cid"; "status"; "created"; "size"] xs))) /\
   (forall xs, (4 < List.length xs)%nat -> Pin.decode (JArr xs) = None)) /\
  ((forall xs, (List.length xs <= 10)%nat ->
      Deals.decode (JArr xs) =
      Deals.decode (JObj (combine ["batchRootCid"; "lastChanged"; "miner"; "pieceCid";
                                   "status"; "statusText"; "chainDealID"; "dealActivation";
                                   "dealExpiration"; "datamodelSelector"] xs))) /\
   (forall xs, (10 < List.length xs)%nat -> Deals.decode (JArr xs) = None)) /\
  ((forall xs, (List.length xs <= 9)%nat ->
      Value.decode (JArr xs) =
      Value.decode (JObj (combine ["cid"; "size"; "created"; "file_type"; "scope"; "pin";
                                   "files"; "deals"; "link"] xs))) /\
   (forall xs, (9 < List.length xs)%nat -> Value.decode (JArr xs) = None)) /\
  ((forall xs, (List.length xs <= 3)%nat ->
      CheckNFTValue.decode (JArr xs) =
      CheckNFTValue.decode (JObj (combine ["cid"; "pin"; "deals"] xs))) /\
   (forall xs, (3 < List.length xs)%nat -> CheckNFTValue.decode (JArr xs) = None)) /\
  ((forall xs, (List.length xs <= 2)%nat ->
      ListNftResponse.decode (JArr xs) =
      ListNftResponse.decode (JObj (combine ["ok"; "value"] xs))) /\
   (forall xs, (2 < List.length xs)%nat -> ListNftResponse.decode (JArr xs) = None)) /\
  ((forall xs, (List.length xs <= 2)%nat ->
      StoreNftResponse.decode (JArr xs) =
      StoreNftResponse.decode (JObj (combine ["ok"; "value"] xs))) /\
   (forall xs, (2 < List.length xs)%nat -> StoreNftResponse.decode (JArr xs) = None)) /\
  ((forall xs, (List.length xs <= 2)%nat ->
      GetNftResponse.decode (JArr xs) =
      GetNftResponse.decode (JObj (combine ["ok"; "value"] xs))) /\
   (forall xs, (2 < List.length xs)%nat -> GetNftResponse.decode (JArr xs) = None)) /\
  ((forall xs, (List.length xs <= 1)%nat ->
      DeleteNftResponse.decode (JArr xs) =
      DeleteNftResponse.decode (JObj (combine ["ok"] xs))) /\
   (forall xs, (1 < List.length xs)%nat -> DeleteNftResponse.decode (JArr xs) = None)) /\
  ((forall xs, (List.length xs <= 2)%nat ->
      CheckCidNftResponse.decode (JArr xs) =
      CheckCidNftResponse.decode (JObj (combine ["ok"; "value"] xs))) /\
   (forall xs, (2 < List.length xs)%nat -> CheckCidNftResponse.decode (JArr xs) = None)).
Proof.
  split; [seq_form Files.decode 2|]. split; [seq_form Pin.decode 4|].
  split; [seq_form Deals.decode 10|]. split; [seq_form Value.decode 9|].
  split; [seq_form CheckNFTValue.decode 3|]. split; [seq_form ListNftResponse.decode 2|].
  split; [seq_form StoreNftResponse.decode 2|]. split; [seq_form GetNftResponse.decode 2|].
  split; [seq_form DeleteNftResponse.decode 1|]. seq_form CheckCidNftResponse.decode 2.
Qed.

(** ** Numbers and arrays inside a page. *)



Lemma dec_list_fails {A} (dec : json -> option A) es e :
  In e es -> dec e = None -> dec_list dec es = None.
Proof.
  induction es as [| x rest IH]; intros Hin Hd; [destruct Hin |].
  simpl. destruct Hin as [-> | Hin]; [rewrite Hd; reflexivity |].
  destruct (dec x); [rewrite (IH Hin Hd); reflexivity | reflexivity].
Qed.


(** One entry of a listed page that does not decode fails the whole
    page: [list_all_stored_nft] returns [InvalidJson], never a partial
    list. *)
Theorem list_page_all_or_nothing (w : World) resp kvs es e :
  (forall q, snd (serve (server w) q) = Received resp) ->
  is_success resp = true -> resp_body resp = JsonText (JObj kvs) ->
  lookup "value" kvs = Some (JArr es) -> In e es -> Value.decode e = None ->
  ListNftResponse.decode (JObj kvs) = None /\
  forall before limit om,
    snd (list_all_stored_nft serve before limit om w) = Err (InvalidJson SerdeDecode).
Proof.
  intros Hsrv Hst Hb Hv Hin He.
  assert (Hd : ListNftResponse.decode (JObj kvs) = None).
  { cbv beta iota delta [ListNftResponse.decode obj_field]; rewrite Hv; cbn [dec_vec].
    rewrite (dec_list_fails Value.decode es e Hin He). all_none; reflexivity. }
  split; [exact Hd |].
  intros before limit om; single_op Hsrv; rewrite Hb; cbn; rewrite Hst; cbn.
  unfold from_value; rewrite Hd; reflexivity.
Qed.

(** ** Requests of the methods. *)

(** [list_all_stored_nft] sends exactly one request, whatever the outcome. *)
Lemma list_all_log (w : World) before limit om :
  exists o, log (fst (list_all_stored_nft serve before limit om w)) =
    (log w ++ [(mkRequest GET (url (handle w) ++ "/?before=" ++ opt_or_empty before
                               ++ "&limit=" ++ opt_or_empty limit) (token (handle w)) NoBody,
                o)])%list.
Proof.
  cbv beta zeta delta [list_all_stored_nft bind get_self]; cbn [ret]. unfold send.
  destruct (serve (server w) _) as [s' [| resp]]; cbn; [eexists; reflexivity |].
  unfold read_json; destruct (resp_body resp); cbn; [| eexists; reflexivity].
  destruct (negb (is_success resp)); cbn; [eexists; reflexivity |].
  unfold from_value; destruct (ListNftResponse.decode v); cbn; [| eexists; reflexivity].
  destruct om; eexists; reflexivity.
Qed.

(** The two modes of [list_all_stored_nft] send the same request and
    differ only in what they make of a decoded page. *)
Lemma list_all_modes (w : World) before limit :
  list_all_stored_nft serve before limit true w =
  match list_all_stored_nft serve before limit false w with
  | (w1, Ok r) =>
      (w1, Ok (ListNftResponse.mkListNftResponse (ListNftResponse.ok r)
                 (map metadata_links (filter has_metadata_first (ListNftResponse.value r)))))
  | other => other
  end.
Proof.
  cbv beta zeta delta [list_all_stored_nft bind get_self]; cbn [ret].
  destruct (send serve _ w) as [w1 [resp | e | m]]; cbn; try reflexivity.
  unfold read_json; destruct (resp_body resp); cbn; [| reflexivity].
  destruct (negb (is_success resp)); cbn; [reflexivity |].
  unfold from_value; destruct (ListNftResponse.decode v) as [[ok es] |]; cbn; [| reflexivity].
  unfold ret; f_equal; f_equal; f_equal.
  assert (Hh : forall f, has_metadata_first (plain_links f) = has_metadata_first f)
    by reflexivity.
  assert (Hm : forall f, metadata_links (plain_links f) = metadata_links f) by reflexivity.
  induction es as [| f rest IH]; [reflexivity |].
  cbn [map filter]. rewrite Hh.
  destruct (has_metadata_first f); cbn [map]; rewrite ?Hm; congruence.
Qed.

(** With [only_metadata = false] no entry of the decoded page is dropped
    and only the [link] fields change; with [only_metadata = true] the
    same call gives the entries whose first file is "metadata.json",
    in order, with the metadata links. *)
Theorem list_modes_compose (w w' : World) before limit rf :
  list_all_stored_nft serve before limit false w = (w', Ok rf) ->
  (exists resp v body,
     log w' = (log w ++ [(mkRequest GET (url (handle w) ++ "/?before=" ++ opt_or_empty before
                          ++ "&limit=" ++ opt_or_empty limit) (token (handle w)) NoBody,
                          Received resp)])%list /\
     resp_body resp = JsonText v /\ ListNftResponse.decode v = Some body /\
     ListNftResponse.ok rf = ListNftResponse.ok body /\
     map (fun f => set_link f []) (ListNftResponse.value rf) =
     map (fun f => set_link f []) (ListNftResponse.value body)) /\
  list_all_stored_nft serve before limit true w =
    (w', Ok (ListNftResponse.mkListNftResponse (ListNftResponse.ok rf)
               (map metadata_links (filter has_metadata_first (ListNftResponse.value rf))))).
Proof.
  intro H; split.
  - destruct (list_all_ok_log w w' before limit false rf H)
      as [resp [v [body [Hlog [_ [Hb [Hd ->]]]]]]].
    exists resp, v, body; repeat split; try assumption.
    simpl; rewrite map_map; reflexivity.
  - rewrite list_all_modes, H; reflexivity.
Qed.

(** ** What [delete_all_nft] sends. *)

Lemma delete_each_requests es (w : World) :
  exists new, log (fst (delete_each serve es w)) = (log w ++ new)%list /\
    Forall (fun e => exists c, fst e = delete_request (handle w) c) new.
Proof.
  revert w; induction es as [| e rest IH]; intro w; simpl.
  - exists []; split; [rewrite app_nil_r; reflexivity | constructor].
  - unfold bind.
    destruct (delete_nft_log w (Value.cid e)) as [o Ho].
    pose proof (kh_delete_nft (Value.cid e) w) as Hh.
    destruct (delete_nft serve (Value.cid e) w) as [w1 [d | err | m]]; simpl in Ho, Hh;
      try (exists [(delete_request (handle w) (Value.cid e), o)]; split;
           [exact Ho | constructor; [eexists; reflexivity | constructor]]).
    destruct (IH w1) as [new [Hl Hf]].
    exists ((delete_request (handle w) (Value.cid e), o) :: new); split.
    + rewrite Hl, Ho, <- app_assoc; reflexivity.
    + constructor; [eexists; reflexivity | rewrite Hh in Hf; exact Hf].
Qed.

Lemma delete_all_loop_requests fuel (w : World) :
  exists new, log (fst (delete_all_loop serve fuel w)) = (log w ++ new)%list /\
    Forall (fun e => fst e = page_request (handle w) \/
                     exists c, fst e = delete_request (handle w) c) new.
Proof.
  revert w; induction fuel as [| n IH]; intro w; simpl.
  - exists []; split; [rewrite app_nil_r; reflexivity | constructor].
  - unfold bind.
    destruct (list_all_log w None (Some "100") false) as [o Ho].
    pose proof (kh_list_all_stored_nft None (Some "100") false w) as Hh1.
    destruct (list_all_stored_nft serve None (Some "100") false w) as [w1 [nfts | e | m]];
      simpl in Ho, Hh1;
      try (exists [(page_request (handle w), o)]; split;
           [exact Ho | constructor; [left; reflexivity | constructor]]).
    destruct (ListNftResponse.ok nfts && Nat.leb (List.length (ListNftResponse.value nfts)) 0).
    + exists [(page_request (handle w), o)]; split;
        [exact Ho | constructor; [left; reflexivity | constructor]].
    + destruct (delete_each_requests (ListNftResponse.value nfts) w1) as [new1 [Hl1 Hf1]].
      pose proof (kh_delete_each (ListNftResponse.value nfts) w1) as Hh2.
      destruct (delete_each serve (ListNftResponse.value nfts) w1) as [w2 [u | e | m]];
        simpl in Hl1, Hh2.
      * destruct (IH w2) as [new2 [Hl2 Hf2]].
        exists ((page_request (handle w), o) :: new1 ++ new2)%list; split.
        -- rewrite Hl2, Hl1, Ho, <- !app_assoc; reflexivity.
        -- constructor; [left; reflexivity |]. apply Forall_app; split.
           ++ rewrite Hh1 in Hf1. eapply Forall_impl; [| exact Hf1]. intros a Ha; right; exact Ha.
           ++ rewrite Hh2, Hh1 in Hf2. exact Hf2.
      * exists ((page_request (handle w), o) :: new1); split.
        -- simpl; rewrite Hl1, Ho, <- app_assoc; reflexivity.
        -- constructor; [left; reflexivity |]. rewrite Hh1 in Hf1.
           eapply Forall_impl; [| exact Hf1]. intros a Ha; right; exact Ha.
      * exists ((page_request (handle w), o) :: new1); split.
        -- simpl; rewrite Hl1, Ho, <- app_assoc; reflexivity.
        -- constructor; [left; reflexivity |]. rewrite Hh1 in Hf1.
           eapply Forall_impl; [| exact Hf1]. intros a Ha; right; exact Ha.
Qed.

(** [delete_all_nft] sends only listing requests (empty [before], limit
    100) and DELETE requests: it never uploads. *)
Theorem delete_all_only_lists_and_deletes fuel (w : World) :
  exists new, log (fst (delete_all_nft serve fuel w)) = (log w ++ new)%list /\
    Forall (fun e => fst e = page_request (handle w) \/
                     exists c, fst e = delete_request (handle w) c) new /\
    Forall (fun e => req_method (fst e) <> POST) new.
Proof.
  unfold delete_all_nft, bind.
  destruct (delete_all_loop_requests fuel w) as [new [Hl Hf]].
  exists new; split; [| split; [exact Hf |]].
  - destruct (delete_all_loop serve fuel w) as [w1 [[] | e | m]]; exact Hl.
  - eapply Forall_impl; [| exact Hf].
    intros a [-> | [c ->]]; simpl; discriminate.
Qed.

(** ** File names beyond the files. *)

Lemma form_parts_extra files names extra :
  (List.length files <= List.length names)%nat ->
  form_parts files (names ++ extra) = form_parts files names.
Proof.
  intro H; unfold form_parts; apply map_ext_in.
  intros i Hi; apply in_seq in Hi. rewrite app_nth1 by lia. reflexivity.
Qed.

(** File names beyond the number of files are ignored by
    [upload_file_in_directory] and [store_nft_in_directory]. *)
Theorem extra_file_names_ignored (w : World) files names extra nft_name description :
  (List.length files <= List.length names)%nat ->
  upload_file_in_directory serve files (names ++ extra) w =
    upload_file_in_directory serve files names w /\
  store_nft_in_directory serve files (names ++ extra) nft_name description w =
    store_nft_in_directory serve files names nft_name description w.
Proof.
  intro H.
  assert (Hu : upload_file_in_directory serve files (names ++ extra) w =
               upload_file_in_directory serve files names w).
  { cbv beta zeta delta [upload_file_in_directory bind get_self]; cbn [ret].
    rewrite (upload_form_ok files (names ++ extra)) by (rewrite length_app; lia).
    rewrite (upload_form_ok files names) by exact H.
    rewrite form_parts_extra by exact H. reflexivity. }
  split; [exact Hu |].
  unfold store_nft_in_directory, bind; rewrite Hu; reflexivity.
Qed.

(** ** Transport failures. *)

Lemma send_transport (w : World) q :
  snd (serve (server w) q) = TransportError ->
  send serve q w =
  (mkWorld (handle w) (fst (serve (server w) q)) (log w ++ [(q, TransportError)]),
   Err (InvalidRequest ReqTransport)).
Proof.
  unfold send; destruct (serve (server w) q) as [s' o]; simpl; intros ->; reflexivity.
Qed.

Ltac run_transport Hsrv :=
  cbv beta zeta delta [list_all_stored_nft upload_file delete_nft get_nft check_nft
                       upload_file_in_directory bind get_self];
  cbn [ret]; try (rewrite upload_form_ok by assumption);
  match goal with
  | |- context [send serve ?q ?w] => rewrite (send_transport w q (Hsrv q))
  end; cbn.

(** When sending fails, every method returns [InvalidRequest] at its
    first request: the composed methods send nothing more, and
    [delete_all_nft] stops at its first listing. *)
Theorem transport_error_stops (w : World) :
  (forall q, snd (serve (server w) q) = TransportError) ->
  let e := InvalidRequest ReqTransport in
  (forall before limit om, snd (list_all_stored_nft serve before limit om w) = Err e) /\
  (forall file, snd (upload_file serve file w) = Err e) /\
  (forall fs ns, (List.length fs <= List.length ns)%nat ->
     snd (upload_file_in_directory serve fs ns w) = Err e) /\
  (forall cid, snd (get_nft serve cid w) = Err e) /\
  (forall cid, snd (delete_nft serve cid w) = Err e) /\
  (forall cid, snd (check_nft serve cid w) = Err e) /\
  (forall file n d, store_nft serve file n d w = upload_file serve file w /\
     snd (store_nft serve file n d w) = Err e) /\
  (forall fs ns n d, (List.length fs <= List.length ns)%nat ->
     store_nft_in_directory serve fs ns n d w = upload_file_in_directory serve fs ns w /\
     snd (store_nft_in_directory serve fs ns n d w) = Err e) /\
  (forall fuel, (0 < fuel)%nat ->
     delete_all_nft serve fuel w =
       (fst (list_all_stored_nft serve None (Some "100") false w), Err e)).
Proof.
  intros Hsrv e; subst e.
  assert (Hup : forall file, snd (upload_file serve file w) = Err (InvalidRequest ReqTransport))
    by (intros; run_transport Hsrv; reflexivity).
  assert (Hdir : forall fs ns, (List.length fs <= List.length ns)%nat ->
            snd (upload_file_in_directory serve fs ns w) = Err (InvalidRequest ReqTransport))
    by (intros; run_transport Hsrv; reflexivity).
  assert (Hlist : forall before limit om,
            snd (list_all_stored_nft serve before limit om w) = Err (InvalidRequest ReqTransport))
    by (intros; run_transport Hsrv; reflexivity).
  split; [exact Hlist |]. split; [exact Hup |]. split; [exact Hdir |].
  split; [intros; run_transport Hsrv; reflexivity |].
  split; [intros; run_transport Hsrv; reflexivity |].
  split; [intros; run_transport Hsrv; reflexivity |].
  split; [| split].
  - intros file n d. specialize (Hup file).
    unfold store_nft, bind.
    destruct (upload_file serve file w) as [w1 r]; simpl in Hup; subst r; split; reflexivity.
  - intros fs ns n d Hl. specialize (Hdir fs ns Hl).
    unfold store_nft_in_directory, bind.
    destruct (upload_file_in_directory serve fs ns w) as [w1 r]; simpl in Hdir; subst r;
      split; reflexivity.
  - intros [| fuel] Hf; [lia |].
    specialize (Hlist None (Some "100") false).
    unfold delete_all_nft, bind; simpl; unfold bind.
    destruct (list_all_stored_nft serve None (Some "100") false w) as [w1 r];
      simpl in Hlist; subst r; reflexivity.
Qed.

(** ** The [json!] map and the serialised metadata. *)

Lemma string_compare_refl s : String.compare s s = Eq.
Proof.
  induction s as [| c s IH]; simpl; [reflexivity |].
  unfold Ascii.compare; rewrite N.compare_refl; exact IH.
Qed.

Lemma lookup_map_insert k v m k' :
  lookup k' (map_insert k v m) = if String.eqb k' k then Some v else lookup k' m.
Proof.
  induction m as [| [k0 v0] rest IH]; simpl; [reflexivity |].
  destruct (String.compare k k0) eqn:Hc; simpl.
  - apply String.compare_eq_iff in Hc; subst k0.
    destruct (String.eqb k' k); reflexivity.
  - reflexivity.
  - rewrite IH. destruct (String.eqb_spec k' k0) as [-> | Hne].
    + destruct (String.eqb_spec k0 k) as [-> | _]; [| reflexivity].
      rewrite string_compare_refl in Hc; discriminate.
    + reflexivity.
Qed.

Lemma lookup_app k (l1 l2 : list (string * json)) :
  lookup k (l1 ++ l2) = match lookup k l1 with Some v => Some v | None => lookup k l2 end.
Proof.
  induction l1 as [| [k0 v0] rest IH]; simpl; [reflexivity |].
  destruct (String.eqb k k0); [reflexivity | exact IH].
Qed.

Lemma lookup_fold_insert k kvs m :
  lookup k (fold_left (fun m kv => map_insert (fst kv) (snd kv) m) kvs m) =
  match lookup k (rev kvs) with Some v => Some v | None => lookup k m end.
Proof.
  revert m; induction kvs as [| [k0 v0] rest IH]; intro m; simpl; [reflexivity |].
  rewrite IH, lookup_app, lookup_map_insert; simpl.
  destruct (lookup k (rev rest)); [reflexivity |].
  destruct (String.eqb k k0); reflexivity.
Qed.

(** [json!] builds its object by inserting the entries in order into a
    map: looking a key up finds the last entry given for it. *)
Theorem json_object_last_wins kvs k :
  get_field (json_object kvs) k = lookup k (rev kvs).
Proof.
  unfold json_object, get_field; rewrite lookup_fold_insert.
  destruct (lookup k (rev kvs)); reflexivity.
Qed.

(** The bytes of the metadata uploaded by [store_nft] and
    [store_nft_in_directory] list the keys in the map's order,
    description, files, name, whatever their order in [json!]. *)
Theorem metadata_bytes nft_name description files :
  to_vec (nft_metadata nft_name description files) =
  list_byte_of_string
    ("{" ++ quote "description" ++ ":" ++ quote description ++ ","
         ++ quote "files" ++ ":" ++ serialize files ++ ","
         ++ quote "name" ++ ":" ++ quote nft_name ++ "}").
Proof.
  unfold to_vec; rewrite nft_metadata_shape.
  cbn [serialize join map fst snd].
  repeat rewrite string_app_assoc. reflexivity.
Qed.

(** ** String escaping. *)

Lemma list_ascii_of_string_app s t :
  list_ascii_of_string (s ++ t) = (list_ascii_of_string s ++ list_ascii_of_string t)%list.
Proof. induction s as [| c s IH]; simpl; [reflexivity | rewrite IH; reflexivity]. Qed.

Lemma hex_digit_printable k :
  (k < 16)%nat -> Forall (fun c => 32 <= nat_of_ascii c)%nat (list_ascii_of_string (hex_digit k)).
Proof.
  intro Hk.
  do 16 (destruct k as [| k]; [repeat constructor; cbv; lia |]).
  lia.
Qed.

Lemma escape_char_printable c :
  Forall (fun c => 32 <= nat_of_ascii c)%nat (list_ascii_of_string (escape_char c)).
Proof.
  unfold escape_char.
  destruct (Nat.eqb_spec (nat_of_ascii c) 34); [repeat constructor; cbv; lia |].
  destruct (Nat.eqb_spec (nat_of_ascii c) 92); [repeat constructor; cbv; lia |].
  destruct (Nat.eqb_spec (nat_of_ascii c) 8); [repeat constructor; cbv; lia |].
  destruct (Nat.eqb_spec (nat_of_ascii c) 9); [repeat constructor; cbv; lia |].
  destruct (Nat.eqb_spec (nat_of_ascii c) 10); [repeat constructor; cbv; lia |].
  destruct (Nat.eqb_spec (nat_of_ascii c) 12); [repeat constructor; cbv; lia |].
  destruct (Nat.eqb_spec (nat_of_ascii c) 13); [repeat constructor; cbv; lia |].
  destruct (Nat.ltb_spec (nat_of_ascii c) 32).
  - rewrite !list_ascii_of_string_app. apply Forall_app; split; [repeat constructor; cbv; lia |].
    apply Forall_app; split; apply hex_digit_printable.
    + apply Nat.Div0.div_lt_upper_bound; lia.
    + apply Nat.mod_upper_bound; lia.
  - repeat constructor; lia.
Qed.

(** [serde_json] string escaping: the output never holds a control byte
    below 0x20; a string without control bytes, quotes or backslashes is
    written as it is; escaping commutes with concatenation. *)
Theorem escape_str_properties :
  (forall s, Forall (fun c => 32 <= nat_of_ascii c)%nat (list_ascii_of_string (escape_str s))) /\
  (forall s, Forall (fun c => 32 <= nat_of_ascii c /\ nat_of_ascii c <> 34 /\
                              nat_of_ascii c <> 92)%nat (list_ascii_of_string s) ->
     escape_str s = s) /\
  (forall s t, escape_str (s ++ t) = escape_str s ++ escape_str t).
Proof.
  split; [| split].
  - induction s as [| c s IH]; simpl; [constructor |].
    rewrite list_ascii_of_string_app. apply Forall_app; split; [apply escape_char_printable | exact IH].
  - induction s as [| c s IH]; intro H; simpl; [reflexivity |].
    inversion H as [| ? ? [H32 [H34 H92]] Hrest]; subst.
    rewrite (IH Hrest). unfold escape_char.
    apply Nat.eqb_neq in H34, H92. rewrite H34, H92.
    assert (Hn : forall m, (m < 32)%nat -> Nat.eqb (nat_of_ascii c) m = false)
      by (intros m Hm; apply Nat.eqb_neq; lia).
    rewrite !Hn by lia.
    destruct (Nat.ltb_spec (nat_of_ascii c) 32); [lia | reflexivity].
  - induction s as [| c s IH]; intro t; simpl; [reflexivity |].
    rewrite IH, string_app_assoc; reflexivity.
Qed.

End Properties.

(** * Witnesses and counterexamples *)

(** ** C2 *)

Lemma non_success_is_api_error_witness :
  is_success api_error_500 = false /\
  snd (upload_file (constant_server (Received api_error_500)) [] sample_world) =
  Err (ApiError (JObj [("ok", JBool false);
    ("error", JObj [("name", JStr "HTTPError"); ("message", JStr "internal")])])).
Proof.
  split; [reflexivity |].
  destruct (non_success_is_api_error (constant_server (Received api_error_500))
              sample_world api_error_500 (fun q => eq_refl) eq_refl) as [_ [H _]].
  exact (H []).
Defined.

(** C2 fails as stated: a non-2xx answer whose body is an HTML error page
    gives [InvalidRequest], not [ApiError] with the body. *)
Lemma non_success_html_counterexample :
  is_success html_502 = false /\
  snd (upload_file (constant_server (Received html_502)) [] sample_world) =
  Err (InvalidRequest ReqDecode) /\
  (forall v, snd (upload_file (constant_server (Received html_502)) [] sample_world) <>
             Err (ApiError v)).
Proof.
  split; [reflexivity |]. split; [reflexivity |].
  intros v; vm_compute; discriminate.
Qed.

(** ** C3 *)

Lemma success_decode_failures_witness :
  is_success html_200 = true /\
  snd (delete_nft (constant_server (Received html_200)) "bafy" sample_world) =
  Err (InvalidRequest ReqDecode).
Proof.
  split; [reflexivity |].
  destruct (success_decode_failures (constant_server (Received html_200))
              sample_world html_200 (fun q => eq_refl) eq_refl) as [H _].
  destruct (H "<html>maintenance</html>" eq_refl) as [_ [_ [_ [_ [Hd _]]]]].
  exact (Hd "bafy").
Defined.

(** C3 fails as stated: a 2xx answer whose body is not JSON gives
    [InvalidRequest], not [InvalidJson]. *)
Lemma success_html_counterexample :
  is_success html_200 = true /\
  snd (upload_file (constant_server (Received html_200)) [] sample_world) =
  Err (InvalidRequest ReqDecode) /\
  (forall e, snd (upload_file (constant_server (Received html_200)) [] sample_world) <>
             Err (InvalidJson e)).
Proof.
  split; [reflexivity |]. split; [reflexivity |].
  intros e; vm_compute; discriminate.
Qed.

(** ** C4 *)

Lemma list_only_metadata_filter_witness :
  exists r,
    snd (list_all_stored_nft (constant_server (Received sample_page)) None None true
           sample_world) = Ok r /\
    map Value.cid (ListNftResponse.value r) = ["bafyA"].
Proof.
  destruct (list_only_metadata_filter (constant_server (Received sample_page))
              sample_world None None sample_page sample_page_json sample_page_body
              (fun q => eq_refl) eq_refl eq_refl eq_refl) as [r [H1 [_ [H3 _]]]].
  exists r; split; [exact H1 |]. rewrite H3; reflexivity.
Defined.

(** ** C5 *)

Lemma convenience_links_exact_witness :
  exists w' r,
    list_all_stored_nft (constant_server (Received sample_page)) None None true
      sample_world = (w', Ok r) /\
    map Value.link (ListNftResponse.value r) =
    [["https://bafyA.ipfs.dweb.link/metadata.json";
      "https://ipfs.io/ipfs/bafyA/metadata.json";
      "ipfs://bafyA/metadata.json"]].
Proof.
  destruct (list_all_stored_nft (constant_server (Received sample_page)) None None true
              sample_world) as [w' res] eqn:Hrun.
  assert (Hres : res = snd (list_all_stored_nft (constant_server (Received sample_page))
                              None None true sample_world)) by (rewrite Hrun; reflexivity).
  vm_compute in Hres. subst res.
  eexists; eexists; split; [reflexivity |].
  destruct (convenience_links_exact (constant_server (Received sample_page)) sample_world w')
    as [H _].
  rewrite (map_ext_in _ (fun x => convenience_links (Value.cid x) "/metadata.json") _
             (H None None true _ Hrun)).
  reflexivity.
Defined.

(** ** C6 *)

Lemma delete_all_rounds_witness :
  (exists w',
    delete_all_nft draining_server 3%nat draining_world =
      (w', Ok (Some (DeleteNftResponse.mkDeleteNftResponse true))) /\
    exists pre resp v body,
      log w' = (pre ++ [(page_request sample_handle, Received resp)])%list /\
      is_success resp = true /\ resp_body resp = JsonText v /\
      ListNftResponse.decode v = Some body /\
      ListNftResponse.ok body = true /\ ListNftResponse.value body = []) /\
  exists w2 e,
    delete_all_nft failing_delete_server 5%nat sample_world = (w2, Err e) /\
    List.length (log w2) = 2%nat.
Proof.
  split.
  - eexists; split; [reflexivity |].
    destruct (delete_all_rounds draining_server) as [_ [H2 _]].
    exact (H2 3%nat draining_world _ _ eq_refl).
  - destruct (delete_all_rounds failing_delete_server) as [_ [_ [_ [_ [H5 _]]]]].
    eexists; eexists; split.
    + eapply (H5 4%nat sample_world _ _ _ _ []).
      * cbv; reflexivity.
      * right; discriminate.
      * reflexivity.
      * reflexivity.
      * cbv; reflexivity.
    + reflexivity.
Defined.

(** C6 fails as stated: a 2xx listing with zero entries but [ok = false]
    does not end [delete_all_nft]; with a server that always answers so,
    it lists again and again and never returns. *)
Lemma delete_all_empty_not_ok_counterexample :
  snd (list_all_stored_nft (constant_server (Received (list_page false []))) None (Some "100")
         false sample_world) = Ok (ListNftResponse.mkListNftResponse false []) /\
  (forall fuel, snd (delete_all_nft (constant_server (Received (list_page false []))) fuel
                       sample_world) = Ok None).
Proof.
  split; [reflexivity |].
  intro fuel; apply delete_all_runs_on.
  - intro w. eexists; eexists; split; [cbv; reflexivity | left; reflexivity].
  - intros es; induction es as [| e rest IH]; intro w.
    + eexists; reflexivity.
    + simpl; unfold bind.
      destruct (IH (fst (delete_nft (constant_server (Received (list_page false [])))
                           (Value.cid e) w))) as [w2 H2].
      eexists; cbn. exact H2.
Qed.

(** ** C10 *)

Lemma delete_all_result_ok_true_witness :
  exists w' r,
    delete_all_nft draining_server 3%nat draining_world = (w', Ok (Some r)) /\
    r = DeleteNftResponse.mkDeleteNftResponse true /\
    In (delete_request sample_handle "bafyA",
        Received (mkHttpResponse 200 (JsonText (JObj [("ok", JBool false)])))) (log w').
Proof.
  exists (fst (delete_all_nft draining_server 3%nat draining_world)),
    (DeleteNftResponse.mkDeleteNftResponse true).
  assert (H : delete_all_nft draining_server 3%nat draining_world =
              (fst (delete_all_nft draining_server 3%nat draining_world),
               Ok (Some (DeleteNftResponse.mkDeleteNftResponse true)))) by reflexivity.
  split; [exact H |]. split.
  - exact (delete_all_result_ok_true draining_server 3%nat draining_world _ _ H).
  - vm_compute. right; left; reflexivity.
Defined.

(** ** C9 *)

Definition two_files : list (list Byte.byte) := [[Byte.x01]; [Byte.x02]].

Lemma upload_dir_index_bounds_witness :
  (List.length ["a.txt"] < List.length two_files)%nat /\
  upload_file_in_directory (constant_server (Received (upload_ok "bafyD" ["a.txt"])))
    two_files ["a.txt"] sample_world = (sample_world, Panic "index out of bounds") /\
  (List.length two_files <= List.length ["a.txt"; "b.txt"])%nat /\
  (forall m, snd (upload_file_in_directory
                    (constant_server (Received (upload_ok "bafyD" ["a.txt"; "b.txt"])))
                    two_files ["a.txt"; "b.txt"] sample_world) <> Panic m).
Proof.
  assert (Hshort : (List.length ["a.txt"] < List.length two_files)%nat) by (simpl; lia).
  assert (Hlong : (List.length two_files <= List.length ["a.txt"; "b.txt"])%nat)
    by (simpl; lia).
  split; [exact Hshort |]. split.
  - destruct (upload_dir_index_bounds
                (constant_server (Received (upload_ok "bafyD" ["a.txt"])))
                sample_world two_files ["a.txt"] "n" "d") as [H1 _].
    exact (proj1 (H1 Hshort)).
  - split; [exact Hlong |].
    destruct (upload_dir_index_bounds
                (constant_server (Received (upload_ok "bafyD" ["a.txt"; "b.txt"])))
                sample_world two_files ["a.txt"; "b.txt"] "n" "d") as [_ H2].
    exact (proj1 (H2 Hlong)).
Defined.

(** ** C1 *)

(** C1 fails as stated: when the first upload is answered with an API
    error, [store_nft] returns that error after a single upload. *)
Lemma store_nft_single_upload_counterexample :
  let w' := fst (store_nft (constant_server (Received api_error_500)) [Byte.x01]
                   "name" "description" sample_world) in
  snd (store_nft (constant_server (Received api_error_500)) [Byte.x01]
         "name" "description" sample_world) =
    Err (ApiError (JObj [("ok", JBool false);
           ("error", JObj [("name", JStr "HTTPError"); ("message", JStr "internal")])])) /\
  List.length (log w') = 1%nat.
Proof. split; reflexivity. Qed.

Lemma store_nft_two_uploads_witness :
  List.length (log (fst (store_nft (constant_server (Received (upload_ok "bafyQ" ["a.txt"])))
                           [Byte.x01] "name" "description" sample_world))) = 2%nat /\
  exists o1 o2,
    log (fst (store_nft (constant_server (Received (upload_ok "bafyQ" ["a.txt"])))
                [Byte.x01] "name" "description" sample_world)) =
    [(upload_request sample_handle (RawBody [Byte.x01]), o1);
     (upload_request sample_handle
        (RawBody (to_vec (nft_metadata "name" "description" (JStr "bafyQ")))), o2)].
Proof.
  split; [reflexivity |].
  destruct (store_nft_two_uploads (constant_server (Received (upload_ok "bafyQ" ["a.txt"])))
              sample_world [Byte.x01] [] [] "name" "description") as [_ [H _]].
  exact (proj2 H).
Defined.

(** ** C7 *)

(** C7 fails as stated: a 2xx upload answer without "ok" does not take
    the default [false]; the envelope does not decode and the call
    returns [InvalidJson]. *)
Definition upload_without_ok : HttpResponse :=
  mkHttpResponse 200 (JsonText (JObj [("value", JObj [("cid", JStr "bafyE")])])).

Lemma store_missing_ok_counterexample :
  Value.decode (JObj [("cid", JStr "bafyE")]) =
    Some (Value.mkValue "bafyE" 0 "" "" "" Pin.default [] [] []) /\
  StoreNftResponse.decode (JObj [("value", JObj [("cid", JStr "bafyE")])]) = None /\
  snd (upload_file (constant_server (Received upload_without_ok)) [Byte.x01] sample_world) =
    Err (InvalidJson SerdeDecode).
Proof. split; [| split]; reflexivity. Qed.

Lemma absent_field_defaults_witness :
  StoreNftResponse.decode (JObj [("value", JObj [("cid", JStr "bafyE")])]) = None /\
  (exists r, Value.decode (JObj (remove_key "size" [("cid", JStr "bafyE"); ("size", JNum 3)]))
               = Some r) /\
  exists r, Value.decode (JObj [("cid", JStr "bafyE"); ("files", JArr [])]) = Some r /\
    Value.size r = 0 /\ Value.pin r = Pin.mkPin "" "" "" 0 /\ Value.link r = [].
Proof.
  destruct absent_field_defaults as [_ [Hrm [Hreq [_ Habs]]]].
  split; [| split].
  - exact (proj1 (Hreq [("value", JObj [("cid", JStr "bafyE")])] (or_introl eq_refl))).
  - destruct (Hrm [("cid", JStr "bafyE"); ("size", JNum 3)] "size") as [_ [_ [_ [Hv _]]]].
    exact (Hv _ eq_refl).
  - destruct (Habs [("cid", JStr "bafyE"); ("files", JArr [])]) as [_ [_ [_ [Hv _]]]].
    eexists; split; [reflexivity |].
    destruct (Hv _ eq_refl) as [_ [Hsize [_ [_ [_ [Hpin [_ [_ Hlink]]]]]]]].
    split; [exact (Hsize eq_refl) | split; [exact (Hpin eq_refl) | exact (Hlink eq_refl)]].
Defined.

(** ** Witnesses of the further properties. *)

Lemma records_roundtrip_witness :
  Value_fits sample_value = true /\
  Value.decode (Value_to_value sample_value) = Some sample_value.
Proof.
  destruct records_roundtrip as [_ [_ [_ [Hv _]]]].
  split; [reflexivity | apply Hv; reflexivity].
Defined.

Lemma envelopes_roundtrip_witness :
  StoreNftResponse.decode
    (StoreNftResponse_to_value (StoreNftResponse.mkStoreNftResponse true sample_value)) =
  Some (StoreNftResponse.mkStoreNftResponse true sample_value).
Proof. destruct envelopes_roundtrip as [_ [Hs _]]. apply Hs; reflexivity. Defined.

Lemma unknown_keys_witness :
  Deals.decode (JObj [("batch_root_cid", JStr "bafyR"); ("miner", JStr "f01234")]) =
  Deals.decode (JObj [("miner", JStr "f01234")]).
Proof.
  destruct unknown_keys as [_ [_ [Hd _]]]. apply Hd.
  intro H; simpl in H; repeat (destruct H as [H | H]; [discriminate |]); exact H.
Defined.

Lemma null_is_not_absent_witness :
  Value.decode (JObj [("cid", JStr "bafyA"); ("link", JNull)]) = None.
Proof.
  destruct null_is_not_absent as [_ [_ [_ [Hv _]]]].
  apply (Hv "link"); [simpl; auto 20 | reflexivity].
Defined.

Lemma seq_form_positional_witness :
  StoreNftResponse.decode (JArr [JBool true; JObj [("cid", JStr "bafyA")]]) =
    StoreNftResponse.decode (JObj [("ok", JBool true); ("value", JObj [("cid", JStr "bafyA")])]) /\
  StoreNftResponse.decode (JArr [JBool true; JObj []; JNull]) = None.
Proof.
  destruct seq_form_positional as [_ [_ [_ [_ [_ [_ [[H1 H2] _]]]]]]].
  split; [apply H1 | apply H2]; simpl; lia.
Defined.


Lemma list_page_all_or_nothing_witness :
  snd (list_all_stored_nft (constant_server (Received oversized_page)) None None false
         sample_world) = Err (InvalidJson SerdeDecode).
Proof.
  refine (proj2 (list_page_all_or_nothing (constant_server (Received oversized_page))
                   sample_world oversized_page
                   [("ok", JBool true); ("value", JArr oversized_entries)] oversized_entries
                   (JObj [("cid", JStr "bafyB"); ("size", JNum (2 ^ 31))])
                   (fun q => eq_refl) eq_refl eq_refl eq_refl _ eq_refl) None None false).
  simpl; auto.
Defined.

Lemma list_modes_compose_witness :
  exists rf,
    list_all_stored_nft (constant_server (Received sample_page)) None None false sample_world =
      (fst (list_all_stored_nft (constant_server (Received sample_page)) None None false
              sample_world), Ok rf) /\
    List.length (ListNftResponse.value rf) = 3%nat /\
    list_all_stored_nft (constant_server (Received sample_page)) None None true sample_world =
      (fst (list_all_stored_nft (constant_server (Received sample_page)) None None false
              sample_world),
       Ok (ListNftResponse.mkListNftResponse (ListNftResponse.ok rf)
             (map metadata_links (filter has_metadata_first (ListNftResponse.value rf))))).
Proof.
  exists (match snd (list_all_stored_nft (constant_server (Received sample_page)) None None
                      false sample_world) with
          | Ok r => r
          | _ => ListNftResponse.default
          end).
  assert (H : list_all_stored_nft (constant_server (Received sample_page)) None None false
                sample_world =
              (fst (list_all_stored_nft (constant_server (Received sample_page)) None None false
                      sample_world),
               Ok (match snd (list_all_stored_nft (constant_server (Received sample_page))
                                None None false sample_world) with
                   | Ok r => r
                   | _ => ListNftResponse.default
                   end))) by reflexivity.
  split; [exact H |]. split; [reflexivity |].
  exact (proj2 (list_modes_compose (constant_server (Received sample_page)) sample_world _
                  None None _ H)).
Defined.

Lemma extra_file_names_ignored_witness :
  (List.length [[Byte.x01]] <= List.length ["a.txt"])%nat /\
  upload_file_in_directory (constant_server (Received (upload_ok "bafyD" ["a.txt"])))
    [[Byte.x01]] (["a.txt"] ++ ["b.txt"]) sample_world =
  upload_file_in_directory (constant_server (Received (upload_ok "bafyD" ["a.txt"])))
    [[Byte.x01]] ["a.txt"] sample_world.
Proof.
  assert (H : (List.length [[Byte.x01]] <= List.length ["a.txt"])%nat) by (simpl; lia).
  split; [exact H |].
  exact (proj1 (extra_file_names_ignored (constant_server (Received (upload_ok "bafyD" ["a.txt"])))
                  sample_world [[Byte.x01]] ["a.txt"] ["b.txt"] "name" "description" H)).
Defined.

Lemma transport_error_stops_witness :
  snd (store_nft (constant_server TransportError) [Byte.x01] "name" "description" sample_world)
    = Err (InvalidRequest ReqTransport) /\
  List.length (log (fst (store_nft (constant_server TransportError) [Byte.x01] "name"
                           "description" sample_world))) = 1%nat.
Proof.
  pose proof (transport_error_stops (constant_server TransportError) sample_world
                (fun q => eq_refl)) as H.
  cbv zeta in H. destruct H as [_ [_ [_ [_ [_ [_ [Hs _]]]]]]].
  split; [exact (proj2 (Hs [Byte.x01] "name" "description")) | reflexivity].
Defined.

Lemma escape_str_properties_witness :
  escape_str "bafyA cat.png" = "bafyA cat.png".
Proof.
  apply (proj1 (proj2 escape_str_properties)).
  apply Forall_forall; intros c Hc; simpl in Hc.
  repeat (destruct Hc as [<- | Hc]; [cbv; lia |]); destruct Hc.
Defined.
